(** * STM32 MCU composition and reset: a shallow embedding of
    [hw/cortexm/stm32-mcu.c]

    The file embeds the three device callbacks of the STM32 MCU type
    (realize, reset, memory-regions-create) and the two private peripheral
    factories ([create_gpio], [create_usart]) as state-passing programs over
    an explicit [World].  Calls into collaborators that live outside the
    file (the QOM object model, the memory API, the character back ends, the
    Cortex-M base class) are recorded, with their arguments, in a trace, so
    that the order and the arguments of those calls can be stated and
    proved. *)

From Stdlib Require Import ZArith String Ascii List Lia DecimalString.
From stdpp Require Import base option list strings.

Open Scope Z_scope.

(** ** Enumerations and the capability descriptor *)

(** Modelled from the spec: the enumeration [stm32_gpio_index_t] is declared
    in [stm32-mcu.h], which is not part of the sources at hand.  The
    enumerators are the seven the source names; the slots are "indexed by
    port letter" and the child name is built as ['a' + index], so port A
    has value 0. *)
Inductive stm32_gpio_index_t : Type :=
| STM32_GPIO_PORT_A | STM32_GPIO_PORT_B | STM32_GPIO_PORT_C
| STM32_GPIO_PORT_D | STM32_GPIO_PORT_E | STM32_GPIO_PORT_F
| STM32_GPIO_PORT_G.

Definition gpio_index_value (i : stm32_gpio_index_t) : Z :=
  match i with
  | STM32_GPIO_PORT_A => 0 | STM32_GPIO_PORT_B => 1 | STM32_GPIO_PORT_C => 2
  | STM32_GPIO_PORT_D => 3 | STM32_GPIO_PORT_E => 4 | STM32_GPIO_PORT_F => 5
  | STM32_GPIO_PORT_G => 6
  end.

(** Modelled from the spec: [stm32_usart_index_t], declared in the same
    header.  Serial children are "named from the 1-based port number" with
    ['1' + index], and the discard streams of USART1 and USART2 are named
    from index 0 and 1, so USART1 has value 0. *)
Inductive stm32_usart_index_t : Type :=
| STM32_USART_1 | STM32_USART_2 | STM32_USART_3
| STM32_UART_4 | STM32_UART_5 | STM32_USART_6.

Definition usart_index_value (i : stm32_usart_index_t) : Z :=
  match i with
  | STM32_USART_1 => 0 | STM32_USART_2 => 1 | STM32_USART_3 => 2
  | STM32_UART_4 => 3 | STM32_UART_5 => 4 | STM32_USART_6 => 5
  end.

(** Modelled from the spec: the array bounds of the two slot arrays,
    "7 GPIO + 6 serial". *)
Definition STM32_MAX_GPIO : nat := 7.
Definition STM32_MAX_USART : nat := 6.

(** The five family enumerators the source switches on; every other value
    of the enumeration reaches the [default] branch. *)
Inductive stm32_family_t : Type :=
| STM32_FAMILY_F1 | STM32_FAMILY_F2 | STM32_FAMILY_F3
| STM32_FAMILY_F4 | STM32_FAMILY_L1
| STM32_FAMILY_other (tag : Z).

(** Modelled from the spec: the capability descriptor, a struct declared
    with the capabilities of the STM32 families and not part of the sources
    at hand: "chip family, per-peripheral presence flags, internal
    oscillator frequencies".  The fields are those the source reads. *)
Record STM32Capabilities : Type := {
  family : stm32_family_t;
  hsi_freq_hz : Z;
  lsi_freq_hz : Z;
  has_periph_bitband : bool;
  has_pwr : bool;
  has_gpioa : bool; has_gpiob : bool; has_gpioc : bool; has_gpiod : bool;
  has_gpioe : bool; has_gpiof : bool; has_gpiog : bool;
  has_usart1 : bool; has_usart2 : bool; has_usart3 : bool;
  has_uart4 : bool; has_uart5 : bool; has_usart6 : bool
}.

(** The presence flag that guards each factory call in the composer. *)
Definition has_gpio (D : STM32Capabilities) (i : stm32_gpio_index_t) : bool :=
  match i with
  | STM32_GPIO_PORT_A => has_gpioa D | STM32_GPIO_PORT_B => has_gpiob D
  | STM32_GPIO_PORT_C => has_gpioc D | STM32_GPIO_PORT_D => has_gpiod D
  | STM32_GPIO_PORT_E => has_gpioe D | STM32_GPIO_PORT_F => has_gpiof D
  | STM32_GPIO_PORT_G => has_gpiog D
  end.

Definition has_serial (D : STM32Capabilities) (j : stm32_usart_index_t) : bool :=
  match j with
  | STM32_USART_1 => has_usart1 D | STM32_USART_2 => has_usart2 D
  | STM32_USART_3 => has_usart3 D | STM32_UART_4 => has_uart4 D
  | STM32_UART_5 => has_uart5 D | STM32_USART_6 => has_usart6 D
  end.

(** ** Objects, devices, memory regions *)

(** Modelled from the spec: the type names behind the [TYPE_...] macros of
    the peripheral headers, one per kind of object the file names. *)
Inductive TypeName : Type :=
| TYPE_STM32_MCU | TYPE_CORTEXM_MCU
| TYPE_STM32_RCC | TYPE_STM32_FLASH | TYPE_STM32_PWR
| TYPE_STM32_GPIO | TYPE_STM32_USART.

(** Object references.  [Obj_dev] is the MCU device the callbacks receive,
    [Obj_container root path] is what [container_get (root, path)] yields
    (the same node for the same arguments), [Obj_child n] is the [n]-th node
    handed out by [cm_object_new], and [Obj_base n] stands for objects that
    the Cortex-M base class owns (its container, the NVIC). *)
#[warnings="-register-all"]
Inductive Object : Type :=
| Obj_dev
| Obj_container (root : option Object) (path : string)
| Obj_child (n : nat)
| Obj_base (n : nat).

#[global] Instance Object_eq_dec : EqDecision Object.
Proof.
  unfold EqDecision, Decision.
  fix go 1.
  intros x y.
  destruct x as [|r p|n|n], y as [|r' p'|n'|n']; try (right; discriminate).
  - left; reflexivity.
  - destruct (decide (p = p')) as [Hp|Hp]; [|right; congruence].
    destruct r as [x|], r' as [y|]; try (right; congruence).
    + destruct (go x y) as [Hxy|Hxy]; [left|right]; congruence.
    + left; congruence.
  - destruct (decide (n = n')) as [Hn|Hn]; [left|right]; congruence.
  - destruct (decide (n = n')) as [Hn|Hn]; [left|right]; congruence.
Defined.

(** [DEVICE(obj)] is a checked cast of the same pointer. *)
Definition DeviceState : Type := Object.
Definition DEVICE (o : Object) : DeviceState := o.
Definition OBJECT (d : DeviceState) : Object := d.

(** Character back ends: those the machine configured, and those created
    on demand from a label and a back-end name. *)
Inductive CharDriverState : Type :=
| Chr_host (n : nat)
| Chr_new (label : string) (filename : string).

(** What a memory region pointer can refer to: the flash region embedded in
    the Cortex-M state, the global system memory, or the [n]-th region taken
    from the heap. *)
Inductive MemoryRegionRef : Type :=
| MR_flash_mem
| MR_system_memory
| MR_heap (n : nat).

Record MemoryRegion : Type := {
  mr_owner : option Object;
  mr_name : string;
  mr_alias : option MemoryRegionRef;
  mr_alias_offset : Z;
  mr_size : Z;
  mr_readonly : bool
}.

(** A block fresh from [g_malloc]: nothing initialised yet. *)
Definition MemoryRegion_uninit : MemoryRegion :=
  {| mr_owner := None; mr_name := ""; mr_alias := None;
     mr_alias_offset := 0; mr_size := 0; mr_readonly := false |}.

Record Subregion : Type := {
  sub_parent : MemoryRegionRef;
  sub_offset : Z;
  sub_region : MemoryRegionRef
}.

(** ** Device state *)

(** Modelled from the spec: the part of [CortexMState], the state of the
    Cortex-M base class, that the file reads: "an interrupt-controller
    reference, and a configured flash size", and the container of the base. *)
Record CortexMState : Type := {
  nvic : option DeviceState;
  cm_container : option Object;
  flash_size_kb : Z
}.

(** Modelled from the spec: [STM32MCUState], declared in [stm32-mcu.h]:
    the bound descriptor, the two external clock inputs, the container, an
    array of optional GPIO children, an array of optional serial children,
    and an optional reference each to the clock, flash and power
    controllers.  A slot array is a list; a write at an index beyond its
    length would leave the list as it is, which the seven and six
    enumerators rule out on arrays of the declared lengths. *)
Record STM32MCUState : Type := {
  parent_obj : CortexMState;
  param_capabilities : option STM32Capabilities;
  capabilities : option STM32Capabilities;
  hse_freq_hz : Z;
  lse_freq_hz : Z;
  container : option Object;
  rcc : option DeviceState;
  flash : option DeviceState;
  pwr : option DeviceState;
  gpio : list (option DeviceState);
  usart : list (option DeviceState)
}.

Definition set_parent_obj (v : CortexMState) (s : STM32MCUState) : STM32MCUState :=
  {| parent_obj := v; param_capabilities := param_capabilities s;
     capabilities := capabilities s; hse_freq_hz := hse_freq_hz s;
     lse_freq_hz := lse_freq_hz s; container := container s; rcc := rcc s;
     flash := flash s; pwr := pwr s; gpio := gpio s; usart := usart s |}.

Definition set_capabilities (v : option STM32Capabilities) (s : STM32MCUState) : STM32MCUState :=
  {| parent_obj := parent_obj s; param_capabilities := param_capabilities s;
     capabilities := v; hse_freq_hz := hse_freq_hz s;
     lse_freq_hz := lse_freq_hz s; container := container s; rcc := rcc s;
     flash := flash s; pwr := pwr s; gpio := gpio s; usart := usart s |}.

Definition set_container (v : option Object) (s : STM32MCUState) : STM32MCUState :=
  {| parent_obj := parent_obj s; param_capabilities := param_capabilities s;
     capabilities := capabilities s; hse_freq_hz := hse_freq_hz s;
     lse_freq_hz := lse_freq_hz s; container := v; rcc := rcc s;
     flash := flash s; pwr := pwr s; gpio := gpio s; usart := usart s |}.

Definition set_rcc (v : option DeviceState) (s : STM32MCUState) : STM32MCUState :=
  {| parent_obj := parent_obj s; param_capabilities := param_capabilities s;
     capabilities := capabilities s; hse_freq_hz := hse_freq_hz s;
     lse_freq_hz := lse_freq_hz s; container := container s; rcc := v;
     flash := flash s; pwr := pwr s; gpio := gpio s; usart := usart s |}.

Definition set_flash (v : option DeviceState) (s : STM32MCUState) : STM32MCUState :=
  {| parent_obj := parent_obj s; param_capabilities := param_capabilities s;
     capabilities := capabilities s; hse_freq_hz := hse_freq_hz s;
     lse_freq_hz := lse_freq_hz s; container := container s; rcc := rcc s;
     flash := v; pwr := pwr s; gpio := gpio s; usart := usart s |}.

Definition set_pwr (v : option DeviceState) (s : STM32MCUState) : STM32MCUState :=
  {| parent_obj := parent_obj s; param_capabilities := param_capabilities s;
     capabilities := capabilities s; hse_freq_hz := hse_freq_hz s;
     lse_freq_hz := lse_freq_hz s; container := container s; rcc := rcc s;
     flash := flash s; pwr := v; gpio := gpio s; usart := usart s |}.

Definition set_gpio (v : list (option DeviceState)) (s : STM32MCUState) : STM32MCUState :=
  {| parent_obj := parent_obj s; param_capabilities := param_capabilities s;
     capabilities := capabilities s; hse_freq_hz := hse_freq_hz s;
     lse_freq_hz := lse_freq_hz s; container := container s; rcc := rcc s;
     flash := flash s; pwr := pwr s; gpio := v; usart := usart s |}.

Definition set_usart (v : list (option DeviceState)) (s : STM32MCUState) : STM32MCUState :=
  {| parent_obj := parent_obj s; param_capabilities := param_capabilities s;
     capabilities := capabilities s; hse_freq_hz := hse_freq_hz s;
     lse_freq_hz := lse_freq_hz s; container := container s; rcc := rcc s;
     flash := flash s; pwr := pwr s; gpio := gpio s; usart := v |}.

(** ** The world: instance state, heap, log and trace *)

(** Values handed to the property setters. *)
Inductive PropValue : Type :=
| V_int (z : Z)
| V_capabilities (c : STM32Capabilities)
| V_device (d : option DeviceState)
| V_chr (c : CharDriverState).

(** One constructor per collaborator entry point the file calls. *)
Inductive Event : Type :=
| E_parent_realize (type : TypeName) (ok : bool)
| E_container_get (root : option Object) (path : string)
| E_bitband_init (parent : option Object) (name : string) (address : Z)
| E_object_new (parent : option Object) (name : string) (type : TypeName) (obj : Object)
| E_prop_set (obj : Object) (name : string) (v : PropValue)
| E_chr_new (label : string) (filename : string) (res : option CharDriverState)
| E_realize (obj : Object)
| E_parent_reset (type : TypeName)
| E_device_reset (dev : DeviceState)
| E_parent_memory_regions_create (type : TypeName).

Inductive LogLine : Type :=
| Log_function_name (fn : string)
| Log_trace (text : string).

Record World : Type := {
  w_mcu : STM32MCUState;
  w_next_obj : nat;
  w_regions : list MemoryRegion;
  w_subregions : list Subregion;
  w_log : list LogLine;
  w_trace : list Event
}.

Definition set_w_mcu (v : STM32MCUState) (w : World) : World :=
  {| w_mcu := v; w_next_obj := w_next_obj w; w_regions := w_regions w;
     w_subregions := w_subregions w; w_log := w_log w; w_trace := w_trace w |}.

Definition set_w_next_obj (v : nat) (w : World) : World :=
  {| w_mcu := w_mcu w; w_next_obj := v; w_regions := w_regions w;
     w_subregions := w_subregions w; w_log := w_log w; w_trace := w_trace w |}.

Definition set_w_regions (v : list MemoryRegion) (w : World) : World :=
  {| w_mcu := w_mcu w; w_next_obj := w_next_obj w; w_regions := v;
     w_subregions := w_subregions w; w_log := w_log w; w_trace := w_trace w |}.

Definition set_w_subregions (v : list Subregion) (w : World) : World :=
  {| w_mcu := w_mcu w; w_next_obj := w_next_obj w; w_regions := w_regions w;
     w_subregions := v; w_log := w_log w; w_trace := w_trace w |}.

Definition set_w_log (v : list LogLine) (w : World) : World :=
  {| w_mcu := w_mcu w; w_next_obj := w_next_obj w; w_regions := w_regions w;
     w_subregions := w_subregions w; w_log := v; w_trace := w_trace w |}.

Definition set_w_trace (v : list Event) (w : World) : World :=
  {| w_mcu := w_mcu w; w_next_obj := w_next_obj w; w_regions := w_regions w;
     w_subregions := w_subregions w; w_log := w_log w; w_trace := v |}.

(** ** The host: what the machine configuration and the base class supply *)

(** An [Error] object as the base class reports it through [errp]. *)
Definition Error : Type := string.

Record Host : Type := {
  (** [serial_hds], declared with [MAX_SERIAL_PORTS] entries *)
  serial_hds : list (option CharDriverState);
  (** the outcome of [qemu_chr_new (label, filename, NULL)] *)
  host_chr_new : string -> string -> option CharDriverState;
  (** the parent realize step: the Cortex-M state it leaves behind and the
      error it reports, if any *)
  host_parent_realize : CortexMState -> CortexMState * option Error;
  (** what the Cortex-M class's own memory-regions routine does to the
      region heap and to the address map *)
  host_memory_regions_create :
    list MemoryRegion * list Subregion -> list MemoryRegion * list Subregion
}.

(** Modelled from the spec: [MAX_SERIAL_PORTS], a macro of the host's
    headers; the host "exposes up to MAX_SERIAL_PORTS optional backing
    character streams indexed 0..", so it is the length of [serial_hds]. *)
Definition MAX_SERIAL_PORTS (h : Host) : Z := Z.of_nat (length (serial_hds h)).

(** ** Programs: state passing with fatal exits *)

Inductive Fatal : Type :=
| Hw_error (msg : string)
| Assert_failed (expr : string).

Inductive Outcome (A : Type) : Type :=
| Returns (a : A) (w : World)
| Aborts (f : Fatal) (w : World).
Arguments Returns {A} a w.
Arguments Aborts {A} f w.

Definition M (A : Type) : Type := World -> Outcome A.

#[global] Instance M_ret : MRet M := fun A a w => Returns a w.
#[global] Instance M_bind : MBind M := fun A B k m w =>
  match m w with
  | Returns a w' => k a w'
  | Aborts f w' => Aborts f w'
  end.

Definition get_mcu : M STM32MCUState := fun w => Returns (w_mcu w) w.
Definition modify_mcu (f : STM32MCUState -> STM32MCUState) : M unit :=
  fun w => Returns tt (set_w_mcu (f (w_mcu w)) w).
Definition emit (e : Event) : M unit :=
  fun w => Returns tt (set_w_trace (w_trace w ++ [e]) w).
Definition qemu_log (l : LogLine) : M unit :=
  fun w => Returns tt (set_w_log (w_log w ++ [l]) w).
Definition hw_error {A : Type} (msg : string) : M A :=
  fun w => Aborts (Hw_error msg) w.
Definition when (cond : bool) (body : M unit) : M unit :=
  if cond then body else mret tt.

(** The [for (i = 0; i < n; ++i)] loops of the reset walk. *)
Fixpoint for_from (count : nat) (i : nat) (body : nat -> M unit) : M unit :=
  match count with
  | O => mret tt
  | S count' => body i;; for_from count' (S i) body
  end.

Definition for_upto (n : nat) (body : nat -> M unit) : M unit :=
  for_from n 0%nat body.

(** ** Formatting *)

(** [%c]: the argument converted to [unsigned char]. *)
Definition fmt_c (c : Z) : string :=
  String (ascii_of_N (Z.to_N (c mod 256))) EmptyString.

(** [%d]. *)
Definition fmt_d (z : Z) : string := NilZero.string_of_int (Z.to_int z).

(** [snprintf (buf, size, ...)]: at most [size - 1] characters are kept. *)
Definition snprintf (size : nat) (formatted : string) : string :=
  substring 0 (size - 1) formatted.

Definition char_a : Z := 97.
Definition char_1 : Z := 49.
Definition newline : string := String (ascii_of_N 10) EmptyString.

(** ** Collaborators

    The helpers below are defined outside the file ("external collaborators,
    specified only at their interface boundary").  Each is an instrumented
    stub: it records its call in the trace, and those that return a
    reference return a fresh one. *)

(** Modelled from the spec: the logging macros ("process-wide
    logging/tracing setup"), writing to the diagnostic log. *)
Definition qemu_log_function_name (fn : string) : M unit :=
  qemu_log (Log_function_name fn).

Definition qemu_log_mask_trace (text : string) : M unit :=
  qemu_log (Log_trace text).

(** Modelled from the spec: [cm_object_new (parent, name, type)], which
    "allocates a child node" of the given type under [parent].  The helper
    itself is defined in the Cortex-M helper sources; the allocation is
    taken to succeed, and a failure inside the helper, which would end the
    run at this call, is not represented. *)
Definition cm_object_new (parent : option Object) (name : string)
    (type : TypeName) : M Object :=
  fun w =>
    let obj := Obj_child (w_next_obj w) in
    Returns obj
      (set_w_trace (w_trace w ++ [E_object_new parent name type obj])
         (set_w_next_obj (S (w_next_obj w)) w)).

(** Modelled from the spec: [container_get (root, path)], "acquire or
    create the device namespace container" at [path] below [root]. *)
Definition container_get (root : option Object) (path : string) : M Object :=
  emit (E_container_get root path);;
  mret (Obj_container root path).

(** Modelled from the spec: the property setters, which "set the port's
    index property" and "inject" the shared references. *)
Definition object_property_set_int (obj : Object) (value : Z) (name : string) : M unit :=
  emit (E_prop_set obj name (V_int value)).

Definition cm_object_property_set_int (obj : Object) (value : Z) (name : string) : M unit :=
  emit (E_prop_set obj name (V_int value)).

Definition qdev_prop_set_ptr (dev : DeviceState) (name : string) (value : PropValue) : M unit :=
  emit (E_prop_set dev name value).

Definition qdev_prop_set_chr (dev : DeviceState) (name : string) (chr : CharDriverState) : M unit :=
  emit (E_prop_set dev name (V_chr chr)).

(** Modelled from the spec: [cm_object_realize], which "finalizes
    (realizes) the node".  The helper itself is defined in the Cortex-M
    helper sources; realization is taken to succeed, and a failure inside
    the helper, which would end the run at this call, is not represented. *)
Definition cm_object_realize (obj : Object) : M unit :=
  emit (E_realize obj).

(** Modelled from the spec: the reset of one child and the "inherited base
    reset step". *)
Definition device_reset (dev : DeviceState) : M unit :=
  emit (E_device_reset dev).

Definition cm_device_parent_reset (type : TypeName) : M unit :=
  emit (E_parent_reset type).

(** Modelled from the spec: the constructor of the "peripheral
    bit-level-access region" over a base address. *)
Definition cortexm_bitband_init (parent : option Object) (name : string)
    (address : Z) : M unit :=
  emit (E_bitband_init parent name address).

(** Modelled from the spec: the "generic address-space primitive", which
    "exposes alias-region creation, read-only marking, and subregion
    insertion into a global address map".  Regions live in a heap, so that
    the three calls act on one shared region through its reference. *)
Definition g_malloc_MemoryRegion : M MemoryRegionRef :=
  fun w =>
    Returns (MR_heap (length (w_regions w)))
      (set_w_regions (w_regions w ++ [MemoryRegion_uninit]) w).

(** The conversion to the 64-bit unsigned offsets and sizes of the memory
    API. *)
Definition uint64_of (z : Z) : Z := z mod 2 ^ 64.

Definition update_region (mr : MemoryRegionRef)
    (f : MemoryRegion -> MemoryRegion) : M unit :=
  fun w =>
    match mr with
    | MR_heap n => Returns tt (set_w_regions (alter f n (w_regions w)) w)
    | _ => Returns tt w
    end.

Definition memory_region_init_alias (mr : MemoryRegionRef)
    (owner : option Object) (name : string) (orig : MemoryRegionRef)
    (offset : Z) (size : Z) : M unit :=
  update_region mr (fun _ =>
    {| mr_owner := owner; mr_name := name; mr_alias := Some orig;
       mr_alias_offset := uint64_of offset; mr_size := uint64_of size;
       mr_readonly := false |}).

Definition memory_region_set_readonly (mr : MemoryRegionRef) (readonly : bool) : M unit :=
  update_region mr (fun r =>
    {| mr_owner := mr_owner r; mr_name := mr_name r; mr_alias := mr_alias r;
       mr_alias_offset := mr_alias_offset r; mr_size := mr_size r;
       mr_readonly := readonly |}).

Definition get_system_memory : MemoryRegionRef := MR_system_memory.

Definition memory_region_add_subregion (mr : MemoryRegionRef) (offset : Z)
    (subregion : MemoryRegionRef) : M unit :=
  fun w =>
    Returns tt
      (set_w_subregions
         (w_subregions w ++
            [{| sub_parent := mr; sub_offset := offset; sub_region := subregion |}])
         w).

(** Modelled from the spec: where an access at byte [k] of a region lands.
    An alias "forwards all reads transparently" to the region it aliases,
    at [alias_offset + k]. *)
Definition region_access (regions : list MemoryRegion) (mr : MemoryRegionRef)
    (k : Z) : option (MemoryRegionRef * Z) :=
  match mr with
  | MR_heap n =>
      r ← regions !! n;
      if bool_decide (0 <= k < mr_size r) then
        match mr_alias r with
        | Some orig => Some (orig, mr_alias_offset r + k)
        | None => Some (mr, k)
        end
      else None
  | _ => Some (mr, k)
  end.

(** A read through a region, given the bytes behind every backing store. *)
Definition region_read (store : MemoryRegionRef -> Z -> Z)
    (regions : list MemoryRegion) (mr : MemoryRegionRef) (k : Z) : option Z :=
  '(target, off) ← region_access regions mr k;
  Some (store target off).

(** [int flash_size = flash_size_kb * 1024]: the product kept in a 32-bit
    [int]. *)
Definition int_of (z : Z) : Z := (z + 2 ^ 31) mod 2 ^ 32 - 2 ^ 31.

(** ** The device code *)

Definition family_label (f : stm32_family_t) : string :=
  match f with
  | STM32_FAMILY_F1 => "F1"
  | STM32_FAMILY_F2 => "F2"
  | STM32_FAMILY_F3 => "F3"
  | STM32_FAMILY_F4 => "F4"
  | STM32_FAMILY_L1 => "L1"
  | STM32_FAMILY_other _ => "unknown"
  end.

Definition gpio_child_name (index : stm32_gpio_index_t) : string :=
  snprintf 10 ("gpio[" +:+ fmt_c (char_a + gpio_index_value index) +:+ "]").

Definition usart_child_name (index : stm32_usart_index_t) : string :=
  snprintf 10 ("usart[" +:+ fmt_c (char_1 + usart_index_value index) +:+ "]").

Definition usart_chardev_name (index : stm32_usart_index_t) : string :=
  snprintf 10 ("serial" +:+ fmt_d (usart_index_value index)).

(** [create_gpio]: a child node under [state->container], its properties,
    its realization, and the slot. *)
Definition create_gpio (index : stm32_gpio_index_t)
    (capabilities : STM32Capabilities) : M unit :=
  let child_name := gpio_child_name index in
  state ← get_mcu;
  gpio_obj ← cm_object_new (container state) child_name TYPE_STM32_GPIO;
  object_property_set_int gpio_obj (gpio_index_value index) "port-index";;
  qdev_prop_set_ptr (DEVICE gpio_obj) "capabilities" (V_capabilities capabilities);;
  state ← get_mcu;
  qdev_prop_set_ptr (DEVICE gpio_obj) "rcc" (V_device (rcc state));;
  cm_object_realize gpio_obj;;
  modify_mcu (fun s =>
    set_gpio (<[Z.to_nat (gpio_index_value index) := Some (DEVICE gpio_obj)]> (gpio s)) s).

Section WithHost.

Context (host : Host).

(** Modelled from the spec: [qemu_chr_new (label, filename, NULL)], which
    creates a character back end or yields [NULL]. *)
Definition qemu_chr_new (label filename : string) : M (option CharDriverState) :=
  let res := host_chr_new host label filename in
  emit (E_chr_new label filename res);;
  mret res.

(** Modelled from the spec: [cm_device_parent_realize (dev, errp, type)],
    the "inherited base construction step".  The result is [None] when the
    call returns true, and the error stored through [errp] otherwise. *)
Definition cm_device_parent_realize (type : TypeName) : M (option Error) :=
  state ← get_mcu;
  let '(cm_state, err) := host_parent_realize host (parent_obj state) in
  modify_mcu (set_parent_obj cm_state);;
  emit (E_parent_realize type (bool_decide (err = None)));;
  mret err.

(** [create_usart].  The read of [serial_hds[index]] comes after the bound
    check, so it is always within the array. *)
Definition create_usart (index : stm32_usart_index_t)
    (capabilities : STM32Capabilities) : M unit :=
  let child_name := usart_child_name index in
  state ← get_mcu;
  usart_obj ← cm_object_new (container state) child_name TYPE_STM32_USART;
  object_property_set_int usart_obj (usart_index_value index) "port-index";;
  qdev_prop_set_ptr (DEVICE usart_obj) "capabilities" (V_capabilities capabilities);;
  state ← get_mcu;
  qdev_prop_set_ptr (DEVICE usart_obj) "rcc" (V_device (rcc state));;
  state ← get_mcu;
  qdev_prop_set_ptr (DEVICE usart_obj) "nvic" (V_device (nvic (parent_obj state)));;
  (if bool_decide (usart_index_value index >= MAX_SERIAL_PORTS host) then
     hw_error ("Cannot assign usart " +:+ fmt_d (usart_index_value index)
               +:+ ": QEMU supports only " +:+ fmt_d (MAX_SERIAL_PORTS host)
               +:+ " ports" +:+ newline)
   else mret tt);;
  chr ← match mjoin (serial_hds host !! Z.to_nat (usart_index_value index)) with
        | Some chr => mret chr
        | None =>
            let chardev_name := usart_chardev_name index in
            chr ← qemu_chr_new chardev_name "null";
            match chr with
            | Some chr => mret chr
            | None =>
                hw_error ("Can't assign serial port to " +:+ child_name
                          +:+ "." +:+ newline)
            end
        end;
  qdev_prop_set_chr (DEVICE usart_obj) "chardev" chr;;
  cm_object_realize usart_obj;;
  modify_mcu (fun s =>
    set_usart (<[Z.to_nat (usart_index_value index) := Some (DEVICE usart_obj)]> (usart s)) s).

(** [assert (p != NULL)] followed by the uses of [*p]. *)
Definition assert_non_null {A : Type} (p : option A) (expr : string) : M A :=
  match p with
  | Some v => mret v
  | None => fun w => Aborts (Assert_failed expr) w
  end.

(** The memory alias block of the constructor. *)
Definition flash_alias_setup : M unit :=
  state ← get_mcu;
  let cm_state := parent_obj state in
  let flash_size := int_of (flash_size_kb cm_state * 1024) in
  flash_alias_mem ← g_malloc_MemoryRegion;
  mem_container ← container_get (cm_container cm_state) "/memory";
  memory_region_init_alias flash_alias_mem (Some mem_container)
    "mem-flash-alias" MR_flash_mem 0 flash_size;;
  memory_region_set_readonly flash_alias_mem true;;
  memory_region_add_subregion get_system_memory 0x08000000 flash_alias_mem.

(** The blocks of the constructor, in source order. *)

(** Peripheral bitband. *)
Definition periph_bitband_setup (capabilities : STM32Capabilities) : M unit :=
  state ← get_mcu;
  when (has_periph_bitband capabilities)
    (cortexm_bitband_init (container state) "periph-bitband" 0x40000000).

(** RCC. *)
Definition rcc_setup (capabilities : STM32Capabilities) : M unit :=
  state ← get_mcu;
  rcc_obj ← cm_object_new (container state) "rcc" TYPE_STM32_RCC;
  qdev_prop_set_ptr (DEVICE rcc_obj) "capabilities" (V_capabilities capabilities);;
  cm_object_property_set_int rcc_obj (hsi_freq_hz capabilities) "hsi-freq-hz";;
  cm_object_property_set_int rcc_obj (lsi_freq_hz capabilities) "lsi-freq-hz";;
  state ← get_mcu;
  cm_object_property_set_int rcc_obj (hse_freq_hz state) "hse-freq-hz";;
  state ← get_mcu;
  cm_object_property_set_int rcc_obj (lse_freq_hz state) "lse-freq-hz";;
  cm_object_realize rcc_obj;;
  modify_mcu (set_rcc (Some (DEVICE rcc_obj))).

(** FLASH. *)
Definition flash_setup (capabilities : STM32Capabilities) : M unit :=
  state ← get_mcu;
  flash_obj ← cm_object_new (container state) "flash" TYPE_STM32_FLASH;
  qdev_prop_set_ptr (DEVICE flash_obj) "capabilities" (V_capabilities capabilities);;
  cm_object_realize flash_obj;;
  modify_mcu (set_flash (Some (DEVICE flash_obj))).

(** The power controller, when the descriptor has one. *)
Definition pwr_setup (capabilities : STM32Capabilities) : M unit :=
  when (has_pwr capabilities)
    (state ← get_mcu;
     pwr_obj ← cm_object_new (container state) "pwr" TYPE_STM32_PWR;
     qdev_prop_set_ptr (DEVICE pwr_obj) "capabilities" (V_capabilities capabilities);;
     cm_object_realize pwr_obj;;
     modify_mcu (set_pwr (Some (DEVICE pwr_obj)))).

(** The GPIO ports, A to G. *)
Definition gpio_setup (capabilities : STM32Capabilities) : M unit :=
  when (has_gpioa capabilities) (create_gpio STM32_GPIO_PORT_A capabilities);;
  when (has_gpiob capabilities) (create_gpio STM32_GPIO_PORT_B capabilities);;
  when (has_gpioc capabilities) (create_gpio STM32_GPIO_PORT_C capabilities);;
  when (has_gpiod capabilities) (create_gpio STM32_GPIO_PORT_D capabilities);;
  when (has_gpioe capabilities) (create_gpio STM32_GPIO_PORT_E capabilities);;
  when (has_gpiof capabilities) (create_gpio STM32_GPIO_PORT_F capabilities);;
  when (has_gpiog capabilities) (create_gpio STM32_GPIO_PORT_G capabilities).

(** The serial ports, USART1 to USART6. *)
Definition usart_setup (capabilities : STM32Capabilities) : M unit :=
  when (has_usart1 capabilities) (create_usart STM32_USART_1 capabilities);;
  when (has_usart2 capabilities) (create_usart STM32_USART_2 capabilities);;
  when (has_usart3 capabilities) (create_usart STM32_USART_3 capabilities);;
  when (has_uart4 capabilities) (create_usart STM32_UART_4 capabilities);;
  when (has_uart5 capabilities) (create_usart STM32_UART_5 capabilities);;
  when (has_usart6 capabilities) (create_usart STM32_USART_6 capabilities).

(** The constructor from the descriptor check onwards, that is, what runs
    once the parent realize step has succeeded. *)
Definition stm32_mcu_realize_devices : M (option Error) :=
  state ← get_mcu;
  capabilities ← assert_non_null (param_capabilities state) "capabilities != NULL";
  modify_mcu (set_capabilities (Some capabilities));;
  let family := family_label (family capabilities) in
  qemu_log_mask_trace ("STM32 Family: " +:+ family +:+ newline);;
  stm32 ← container_get (Some (OBJECT Obj_dev)) "/stm32";
  modify_mcu (set_container (Some stm32));;
  flash_alias_setup;;
  periph_bitband_setup capabilities;;
  rcc_setup capabilities;;
  flash_setup capabilities;;
  pwr_setup capabilities;;
  gpio_setup capabilities;;
  usart_setup capabilities;;
  mret None.

(** [stm32_mcu_realize_callback (dev, errp)].  The result is what the call
    leaves in [*errp]: [None] when nothing was stored. *)
Definition stm32_mcu_realize_callback : M (option Error) :=
  qemu_log_function_name "stm32_mcu_realize_callback";;
  parent ← cm_device_parent_realize TYPE_STM32_MCU;
  match parent with
  | Some err => mret (Some err)
  | None => stm32_mcu_realize_devices
  end.

End WithHost.

(** [if (p) device_reset (p)]. *)
Definition reset_if_present (p : option DeviceState) : M unit :=
  match p with
  | Some dev => device_reset dev
  | None => mret tt
  end.

(** [stm32_mcu_reset_callback (dev)]. *)
Definition stm32_mcu_reset_callback : M unit :=
  qemu_log_function_name "stm32_mcu_reset_callback";;
  cm_device_parent_reset TYPE_STM32_MCU;;
  state ← get_mcu;
  reset_if_present (rcc state);;
  state ← get_mcu;
  reset_if_present (flash state);;
  for_upto STM32_MAX_GPIO (fun i =>
    state ← get_mcu;
    reset_if_present (mjoin (gpio state !! i)));;
  for_upto STM32_MAX_USART (fun i =>
    state ← get_mcu;
    reset_if_present (mjoin (usart state !! i))).

(** ** Classes and the memory-regions hook *)

Record CortexMClass : Type := {
  memory_regions_create : M unit
}.

Record STM32MCUClass : Type := {
  dc_realize : M (option Error);
  dc_reset : M unit;
  cm_class : CortexMClass
}.

Section WithHostClasses.

Context (host : Host).

(** Modelled from the spec: the base substrate's memory-setup routine, the
    [memory_regions_create] member of the Cortex-M class, which is defined
    in the Cortex-M sources.  It works on the address map only. *)
Definition base_memory_setup : M unit :=
  fun w =>
    let '(regions, subregions) :=
      host_memory_regions_create host (w_regions w, w_subregions w) in
    Returns tt (set_w_subregions subregions (set_w_regions regions w)).

Definition cortexm_mcu_memory_regions_create : M unit :=
  emit (E_parent_memory_regions_create TYPE_CORTEXM_MCU);;
  base_memory_setup.

Definition cortexm_mcu_class : CortexMClass :=
  {| memory_regions_create := cortexm_mcu_memory_regions_create |}.

(** [CORTEXM_MCU_CLASS (object_class_by_name (name))]: the class registered
    under [name], cast to the Cortex-M class; the cast asserts. *)
Definition object_class_by_name (name : TypeName) : option CortexMClass :=
  match name with
  | TYPE_CORTEXM_MCU => Some cortexm_mcu_class
  | _ => None
  end.

Definition CORTEXM_MCU_CLASS (klass : option CortexMClass) : M CortexMClass :=
  assert_non_null klass "CORTEXM_MCU_CLASS".

(** [stm32_mcu_memory_regions_create_callback (dev)]. *)
Definition stm32_mcu_memory_regions_create_callback : M unit :=
  qemu_log_function_name "stm32_mcu_memory_regions_create_callback";;
  parent_class ← CORTEXM_MCU_CLASS (object_class_by_name TYPE_CORTEXM_MCU);
  memory_regions_create parent_class.

(** [stm32_mcu_class_init_callback (klass, data)]. *)
Definition stm32_mcu_class_init_callback (klass : STM32MCUClass) : STM32MCUClass :=
  {| dc_realize := stm32_mcu_realize_callback host;
     dc_reset := stm32_mcu_reset_callback;
     cm_class :=
       {| memory_regions_create := stm32_mcu_memory_regions_create_callback |} |}.

End WithHostClasses.

(** ** Instances before composition *)

(** The object model hands out zero-filled instance memory (the type has an
    instance size and no instance initialiser); the machine then sets the
    three properties of the type and the Cortex-M part. *)
Definition STM32MCUState_new (cm : CortexMState)
    (caps : option STM32Capabilities) (hse lse : Z) : STM32MCUState :=
  {| parent_obj := cm; param_capabilities := caps; capabilities := None;
     hse_freq_hz := hse; lse_freq_hz := lse; container := None;
     rcc := None; flash := None; pwr := None;
     gpio := replicate STM32_MAX_GPIO None;
     usart := replicate STM32_MAX_USART None |}.

Definition World_new (s : STM32MCUState) : World :=
  {| w_mcu := s; w_next_obj := 0; w_regions := []; w_subregions := [];
     w_log := []; w_trace := [] |}.

(** ** Observations *)

Definition gpio_slot (s : STM32MCUState) (i : stm32_gpio_index_t) : option DeviceState :=
  mjoin (gpio s !! Z.to_nat (gpio_index_value i)).

Definition usart_slot (s : STM32MCUState) (j : stm32_usart_index_t) : option DeviceState :=
  mjoin (usart s !! Z.to_nat (usart_index_value j)).

(** The C declaration fixes the length of the two slot arrays. *)
Definition slot_arrays_sized (s : STM32MCUState) : Prop :=
  length (gpio s) = STM32_MAX_GPIO /\ length (usart s) = STM32_MAX_USART.

(** No child slot holds a reference yet. *)
Definition slots_unpopulated (s : STM32MCUState) : Prop :=
  gpio s = replicate STM32_MAX_GPIO None /\
  usart s = replicate STM32_MAX_USART None /\
  pwr s = None.

(** The calls made between two worlds of one run. *)
Definition events_since (w w' : World) : list Event :=
  drop (length (w_trace w)) (w_trace w').

Definition is_bitband_init (e : Event) : bool :=
  match e with E_bitband_init _ _ _ => true | _ => false end.

Definition is_object_new (e : Event) : bool :=
  match e with E_object_new _ _ _ _ => true | _ => false end.

Definition is_device_reset_of (dev : DeviceState) (e : Event) : bool :=
  match e with
  | E_device_reset d => bool_decide (d = dev)
  | _ => false
  end.

Definition is_prop_set (e : Event) : bool :=
  match e with E_prop_set _ _ _ => true | _ => false end.

Definition is_chr_new (e : Event) : bool :=
  match e with E_chr_new _ _ _ => true | _ => false end.

(** The child nodes a trace allocates: container, name and type of each. *)
Definition child_allocations (t : list Event)
    : list (option Object * string * TypeName) :=
  omap (fun e =>
    match e with
    | E_object_new parent name type _ => Some (parent, name, type)
    | _ => None
    end) t.

(** The world a run ends in, whether it returns or aborts. *)
Definition outcome_world {A : Type} (o : Outcome A) : World :=
  match o with
  | Returns _ w => w
  | Aborts _ w => w
  end.

(** The calls one reset makes, read off the instance state. *)
Definition reset_walk (s : STM32MCUState) : list Event :=
  [E_parent_reset TYPE_STM32_MCU]
  ++ map E_device_reset (option_list (rcc s))
  ++ map E_device_reset (option_list (flash s))
  ++ map E_device_reset (omap id (gpio s))
  ++ map E_device_reset (omap id (usart s)).

(** [n] reset events delivered one after the other. *)
Fixpoint reset_times (n : nat) : M unit :=
  match n with
  | O => mret tt
  | S n' => stm32_mcu_reset_callback;; reset_times n'
  end.

(** How often a device is reset in a trace. *)
Definition resets_of (dev : DeviceState) (t : list Event) : nat :=
  length (filter (fun e => is_device_reset_of dev e = true) t).

(** Two worlds that differ at most in the diagnostic log. *)
Definition same_but_log (w1 w2 : World) : Prop :=
  w_mcu w1 = w_mcu w2 /\ w_next_obj w1 = w_next_obj w2 /\
  w_regions w1 = w_regions w2 /\ w_subregions w1 = w_subregions w2 /\
  w_trace w1 = w_trace w2.

(** ** Relations between the start and the end of a run *)

(** [m] relates every world to the world it ends in, whether it returns or
    aborts. *)
Definition respects (R : World -> World -> Prop) {A : Type} (m : M A) : Prop :=
  forall w, R w (outcome_world (m w)).

(** Runs that leave the region heap and the address map alone and make no
    call to the bitband constructor. *)
Definition off_memory_map (w w' : World) : Prop :=
  w_regions w' = w_regions w /\
  w_subregions w' = w_subregions w /\
  exists d,
    w_trace w' = w_trace w ++ d /\
    Forall (fun e => is_bitband_init e = false) d.

(** Runs that write none of the child slots the presence flags govern. *)
Definition slots_kept (w w' : World) : Prop :=
  gpio (w_mcu w') = gpio (w_mcu w) /\
  usart (w_mcu w') = usart (w_mcu w) /\
  pwr (w_mcu w') = pwr (w_mcu w).

(** [m] returns from every world. *)
Definition always_returns {A : Type} (m : M A) : Prop :=
  forall w, exists a w', m w = Returns a w'.

(** A host that can back all six serial ports: six entries in
    [serial_hds], a base step that succeeds and character back ends that
    can always be created. *)
Definition host_backs_all_ports (h : Host) : Prop :=
  6 <= MAX_SERIAL_PORTS h /\
  (forall label filename, is_Some (host_chr_new h label filename)) /\
  (forall cm, (host_parent_realize h cm).2 = None).

(** ** Sample configurations *)

Definition sample_capabilities : STM32Capabilities :=
  {| family := STM32_FAMILY_F4; hsi_freq_hz := 16000000; lsi_freq_hz := 32000;
     has_periph_bitband := true; has_pwr := true;
     has_gpioa := true; has_gpiob := true; has_gpioc := false;
     has_gpiod := false; has_gpioe := false; has_gpiof := false;
     has_gpiog := false;
     has_usart1 := true; has_usart2 := false; has_usart3 := false;
     has_uart4 := true; has_uart5 := false; has_usart6 := false |}.

Definition sample_cortexm : CortexMState :=
  {| nvic := Some (Obj_base 0); cm_container := Some (Obj_base 1);
     flash_size_kb := 1024 |}.

(** Four serial back ends, the first one configured by the machine. *)
Definition sample_host : Host :=
  {| serial_hds := [Some (Chr_host 0); None; None; None];
     host_chr_new := fun label filename => Some (Chr_new label filename);
     host_parent_realize := fun cm => (cm, None);
     host_memory_regions_create := fun m => m |}.

(** A machine without any serial back end. *)
Definition host_without_serial : Host :=
  {| serial_hds := [];
     host_chr_new := fun label filename => Some (Chr_new label filename);
     host_parent_realize := fun cm => (cm, None);
     host_memory_regions_create := fun m => m |}.

(** A machine on which no character back end can be created. *)
Definition host_without_chardev : Host :=
  {| serial_hds := [None; None; None; None];
     host_chr_new := fun _ _ => None;
     host_parent_realize := fun cm => (cm, None);
     host_memory_regions_create := fun m => m |}.

(** A machine whose Cortex-M substrate fails to realize. *)
Definition host_base_failure : Host :=
  {| serial_hds := [None; None; None; None];
     host_chr_new := fun label filename => Some (Chr_new label filename);
     host_parent_realize := fun cm => (cm, Some "cortexm realize failed");
     host_memory_regions_create := fun m => m |}.

Definition sample_world : World :=
  World_new (STM32MCUState_new sample_cortexm (Some sample_capabilities)
               8000000 32768).

(** The same instance with the capabilities property left unset. *)
Definition world_without_capabilities : World :=
  World_new (STM32MCUState_new sample_cortexm None 8000000 32768).

(** The names under which a trace allocates child nodes. *)
Definition child_names (t : list Event) : list string :=
  map (fun a => a.1.2) (child_allocations t).

(** The value a trace stores in a property of an object. *)
Definition prop_values (obj : Object) (name : string) (t : list Event)
    : list PropValue :=
  omap (fun e =>
    match e with
    | E_prop_set o n v =>
        if bool_decide (o = obj /\ n = name) then Some v else None
    | _ => None
    end) t.

(** Two GPIO ports and nothing else, on a megabyte of flash. *)
Definition gpio_only_capabilities : STM32Capabilities :=
  {| family := STM32_FAMILY_F4; hsi_freq_hz := 16000000; lsi_freq_hz := 32000;
     has_periph_bitband := false; has_pwr := false;
     has_gpioa := true; has_gpiob := true; has_gpioc := false;
     has_gpiod := false; has_gpioe := false; has_gpiof := false;
     has_gpiog := false;
     has_usart1 := false; has_usart2 := false; has_usart3 := false;
     has_uart4 := false; has_uart5 := false; has_usart6 := false |}.

(** The instance as the composer leaves it just before the serial ports:
    container, clock and flash controllers and two GPIO ports in place. *)
Definition world_before_serial : World :=
  outcome_world
    (stm32_mcu_realize_callback sample_host
       (World_new (STM32MCUState_new sample_cortexm
                     (Some gpio_only_capabilities) 8000000 32768))).

(** The sample instance, composed. *)
Definition sample_composed_world : World :=
  outcome_world (stm32_mcu_realize_callback sample_host sample_world).

(** USART1 and USART2 and nothing else. *)
Definition serial_pair_capabilities : STM32Capabilities :=
  {| family := STM32_FAMILY_F1; hsi_freq_hz := 8000000; lsi_freq_hz := 40000;
     has_periph_bitband := false; has_pwr := false;
     has_gpioa := false; has_gpiob := false; has_gpioc := false;
     has_gpiod := false; has_gpioe := false; has_gpiof := false;
     has_gpiog := false;
     has_usart1 := true; has_usart2 := true; has_usart3 := false;
     has_uart4 := false; has_uart5 := false; has_usart6 := false |}.

(** Four serial back ends, none of them configured by the machine. *)
Definition host_with_free_ports : Host :=
  {| serial_hds := [None; None; None; None];
     host_chr_new := fun label filename => Some (Chr_new label filename);
     host_parent_realize := fun cm => (cm, None);
     host_memory_regions_create := fun m => m |}.

(** ** Further observations *)

(** The nodes a trace allocates, each with the name it is registered
    under. *)
Definition child_nodes (t : list Event) : list (string * Object) :=
  omap (fun e =>
    match e with
    | E_object_new _ name _ obj => Some (name, obj)
    | _ => None
    end) t.

(** The nodes a trace realizes. *)
Definition realized_nodes (t : list Event) : list Object :=
  omap (fun e => match e with E_realize obj => Some obj | _ => None end) t.

(** The devices a trace forwards a reset to. *)
Definition reset_targets (t : list Event) : list DeviceState :=
  omap (fun e => match e with E_device_reset dev => Some dev | _ => None end) t.

(** The first node of a list registered under a name. *)
Fixpoint lookup_node (name : string) (nodes : list (string * Object))
    : option Object :=
  match nodes with
  | [] => None
  | (n, obj) :: rest =>
      if decide (n = name) then Some obj else lookup_node name rest
  end.

Definition node_named (name : string) (t : list Event) : option Object :=
  lookup_node name (child_nodes t).

(** The host can back serial port [j]: the index is within [serial_hds],
    and either the machine configured a stream there or a "null" stream
    with the port's label can be created. *)
Definition port_backed (h : Host) (j : stm32_usart_index_t) : Prop :=
  usart_index_value j < MAX_SERIAL_PORTS h /\
  (is_Some (mjoin (serial_hds h !! Z.to_nat (usart_index_value j))) \/
   is_Some (host_chr_new h (usart_chardev_name j) "null")).

(** The two port tables, in the order the constructor walks them. *)
Definition all_gpio_ports : list stm32_gpio_index_t :=
  [STM32_GPIO_PORT_A; STM32_GPIO_PORT_B; STM32_GPIO_PORT_C; STM32_GPIO_PORT_D;
   STM32_GPIO_PORT_E; STM32_GPIO_PORT_F; STM32_GPIO_PORT_G].

Definition all_usart_ports : list stm32_usart_index_t :=
  [STM32_USART_1; STM32_USART_2; STM32_USART_3; STM32_UART_4; STM32_UART_5;
   STM32_USART_6].

(** ** What the later blocks of the constructor may do *)

(** The object an event acts on. *)
Definition event_object (e : Event) : option Object :=
  match e with
  | E_object_new _ _ _ obj => Some obj
  | E_prop_set obj _ _ => Some obj
  | E_realize obj => Some obj
  | _ => None
  end.

(** The event, if it acts on an object, acts on a node numbered from [n]
    up to but not including [n']. *)
Definition numbered_between (n n' : nat) (e : Event) : Prop :=
  match event_object e with
  | Some (Obj_child m) => (n <= m < n')%nat
  | Some _ => False
  | None => True
  end.

(** The part of the instance state that is settled once the flash
    controller is in place. *)
Definition instance_core (s : STM32MCUState) :=
  (parent_obj s, param_capabilities s, capabilities s, hse_freq_hz s,
   lse_freq_hz s, container s, rcc s, flash s).

(** A call as the power, GPIO and serial blocks make them for descriptor
    [D] on instance state [s]: a node allocated under the instance's
    container, a property set (the descriptor, the clock controller and the
    interrupt controller being those of the instance), a node realized or
    a character stream requested. *)
Definition later_call (D : STM32Capabilities) (s : STM32MCUState) (e : Event)
    : Prop :=
  match e with
  | E_object_new parent _ _ _ => parent = container s
  | E_prop_set _ name v =>
      (name = "capabilities" -> v = V_capabilities D) /\
      (name = "rcc" -> v = V_device (rcc s)) /\
      (name = "nvic" -> v = V_device (nvic (parent_obj s)))
  | E_realize _ => True
  | E_chr_new _ _ _ => True
  | _ => False
  end.

(** Runs that only build children: the settled part of the instance, the
    memory map and the log stay as they are, and the calls made are
    [later_call]s on freshly numbered nodes. *)
Definition builds_children (D : STM32Capabilities) (w w' : World) : Prop :=
  instance_core (w_mcu w') = instance_core (w_mcu w) /\
  w_log w' = w_log w /\
  (w_next_obj w <= w_next_obj w')%nat /\
  exists d,
    w_trace w' = w_trace w ++ d /\
    Forall (later_call D (w_mcu w)) d /\
    Forall (numbered_between (w_next_obj w) (w_next_obj w')) d.

(** The calls of the constructor up to and including the flash controller
    block, for descriptor [D], base state [cm'], external clock inputs
    [hse] and [lse], and first free node number [n]. *)
Definition controller_calls (D : STM32Capabilities) (cm' : CortexMState)
    (hse lse : Z) (n : nat) : list Event :=
  let stm32 := Obj_container (Some Obj_dev) "/stm32" in
  let rcc_obj := Obj_child n in
  let flash_obj := Obj_child (S n) in
  [E_parent_realize TYPE_STM32_MCU true;
   E_container_get (Some Obj_dev) "/stm32";
   E_container_get (cm_container cm') "/memory"] ++
  (if has_periph_bitband D
   then [E_bitband_init (Some stm32) "periph-bitband" 0x40000000]
   else []) ++
  [E_object_new (Some stm32) "rcc" TYPE_STM32_RCC rcc_obj;
   E_prop_set rcc_obj "capabilities" (V_capabilities D);
   E_prop_set rcc_obj "hsi-freq-hz" (V_int (hsi_freq_hz D));
   E_prop_set rcc_obj "lsi-freq-hz" (V_int (lsi_freq_hz D));
   E_prop_set rcc_obj "hse-freq-hz" (V_int hse);
   E_prop_set rcc_obj "lse-freq-hz" (V_int lse);
   E_realize rcc_obj;
   E_object_new (Some stm32) "flash" TYPE_STM32_FLASH flash_obj;
   E_prop_set flash_obj "capabilities" (V_capabilities D);
   E_realize flash_obj].

(** The world in which the constructor leaves the flash controller block,
    having started in [w] with descriptor [D] and a base step that left
    [cm']. *)
Definition controllers_world (w : World) (D : STM32Capabilities)
    (cm' : CortexMState) : World :=
  {| w_mcu :=
       set_flash (Some (Obj_child (S (w_next_obj w))))
         (set_rcc (Some (Obj_child (w_next_obj w)))
            (set_container (Some (Obj_container (Some Obj_dev) "/stm32"))
               (set_capabilities (Some D)
                  (set_parent_obj cm' (w_mcu w)))));
     w_next_obj := S (S (w_next_obj w));
     w_regions :=
       w_regions w ++
         [{| mr_owner := Some (Obj_container (cm_container cm') "/memory");
             mr_name := "mem-flash-alias";
             mr_alias := Some MR_flash_mem;
             mr_alias_offset := uint64_of 0;
             mr_size := uint64_of (int_of (flash_size_kb cm' * 1024));
             mr_readonly := true |}];
     w_subregions :=
       w_subregions w ++
         [{| sub_parent := MR_system_memory; sub_offset := 0x08000000;
             sub_region := MR_heap (length (w_regions w)) |}];
     w_log :=
       w_log w ++
         [Log_function_name "stm32_mcu_realize_callback";
          Log_trace ("STM32 Family: " +:+ family_label (family D) +:+ newline)];
     w_trace :=
       w_trace w ++
         controller_calls D cm' (hse_freq_hz (w_mcu w)) (lse_freq_hz (w_mcu w))
           (w_next_obj w) |}.

(** ** Port tables *)

(** One guarded factory call per port of a table, in table order: the
    shape of the GPIO and of the serial part of the constructor. *)
Fixpoint ports_setup {I : Type} (flag : I -> bool) (factory : I -> M unit)
    (ports : list I) : M unit :=
  match ports with
  | [] => mret tt
  | i :: rest => when (flag i) (factory i);; ports_setup flag factory rest
  end.

(** The nodes a table walk registers when the flagged ports are served in
    table order and node numbers are handed out from [n]. *)
Fixpoint assigned_nodes {I : Type} (flag : I -> bool) (name : I -> string)
    (ports : list I) (n : nat) : list (string * Object) :=
  match ports with
  | [] => []
  | i :: rest =>
      if flag i
      then (name i, Obj_child n) :: assigned_nodes flag name rest (S n)
      else assigned_nodes flag name rest n
  end.

(** The slots such a walk leaves behind, one per port of the table. *)
Fixpoint assigned_slots {I : Type} (flag : I -> bool) (ports : list I)
    (n : nat) : list (option DeviceState) :=
  match ports with
  | [] => []
  | i :: rest =>
      if flag i
      then Some (Obj_child n) :: assigned_slots flag rest (S n)
      else None :: assigned_slots flag rest n
  end.

(** ** The children of a composed instance *)

(** Name and type of the children the constructor allocates for
    descriptor [D], in the order of its blocks: the clock and the flash
    controller, the power controller if flagged, then the flagged GPIO
    ports and the flagged serial ports in table order. *)
Definition composed_children (D : STM32Capabilities)
    : list (string * TypeName) :=
  [("rcc", TYPE_STM32_RCC); ("flash", TYPE_STM32_FLASH)] ++
  (if has_pwr D then [("pwr", TYPE_STM32_PWR)] else []) ++
  map (fun i => (gpio_child_name i, TYPE_STM32_GPIO))
    (List.filter (has_gpio D) all_gpio_ports) ++
  map (fun j => (usart_child_name j, TYPE_STM32_USART))
    (List.filter (has_serial D) all_usart_ports).

(** The nodes of a composition whose first node has number [n]: the
    children of [composed_children], numbered in that order. *)
Definition composed_nodes (D : STM32Capabilities) (n : nat)
    : list (string * Object) :=
  let p := if has_pwr D then 1%nat else 0%nat in
  let g := length (List.filter (has_gpio D) all_gpio_ports) in
  [("rcc", Obj_child n); ("flash", Obj_child (S n))] ++
  (if has_pwr D then [("pwr", Obj_child (S (S n)))] else []) ++
  assigned_nodes (has_gpio D) gpio_child_name all_gpio_ports (2 + n + p) ++
  assigned_nodes (has_serial D) usart_child_name all_usart_ports
    (2 + n + p + g).

(** ** Further sample configurations *)

(** A class record as it is before class initialisation: no hook of this
    type installed yet. *)
Definition blank_class : STM32MCUClass :=
  {| dc_realize := mret None; dc_reset := mret tt;
     cm_class := {| memory_regions_create := mret tt |} |}.



(** * Properties *)

(** ** Running programs *)

Lemma bind_run {A B : Type} (m : M A) (k : A -> M B) (w : World) :
  (m ≫= k) w =
  match m w with
  | Returns a w' => k a w'
  | Aborts f w' => Aborts f w'
  end.
Proof. reflexivity. Qed.

(** Unfold the monad and the collaborators, then read the fields. *)
Ltac run :=
  cbv beta iota zeta delta
    [mbind M_bind mret M_ret when assert_non_null reset_if_present DEVICE OBJECT
     qemu_log_function_name qemu_log_mask_trace object_property_set_int
     cm_object_property_set_int qdev_prop_set_ptr qdev_prop_set_chr
     cm_object_realize device_reset cm_device_parent_reset cortexm_bitband_init
     container_get qemu_chr_new];
  cbn [get_mcu modify_mcu emit qemu_log hw_error cm_object_new
       set_w_mcu set_w_next_obj set_w_regions set_w_subregions set_w_log
       set_w_trace set_parent_obj set_capabilities set_container set_rcc
       set_flash set_pwr set_gpio set_usart
       w_mcu w_next_obj w_regions w_subregions w_log w_trace
       parent_obj param_capabilities capabilities hse_freq_hz lse_freq_hz
       container rcc flash pwr gpio usart outcome_world].

Lemma events_since_app (w w' : World) (d : list Event) :
  w_trace w' = w_trace w ++ d -> events_since w w' = d.
Proof.
  intros H. unfold events_since. rewrite H. apply drop_app_length.
Qed.

(** ** The peripheral factories *)

(** The GPIO factory never aborts; what it leaves behind is fixed by the
    instance state and the allocation counter. *)
Lemma create_gpio_runs (index : stm32_gpio_index_t)
    (caps : STM32Capabilities) (w : World) :
  let obj := Obj_child (w_next_obj w) in
  create_gpio index caps w =
  Returns tt
    (set_w_mcu
       (set_gpio (<[Z.to_nat (gpio_index_value index) := Some obj]> (gpio (w_mcu w)))
          (w_mcu w))
       (set_w_next_obj (S (w_next_obj w))
          (set_w_trace
             (w_trace w ++
                [E_object_new (container (w_mcu w)) (gpio_child_name index)
                   TYPE_STM32_GPIO obj;
                 E_prop_set obj "port-index" (V_int (gpio_index_value index));
                 E_prop_set obj "capabilities" (V_capabilities caps);
                 E_prop_set obj "rcc" (V_device (rcc (w_mcu w)));
                 E_realize obj])
             w))).
Proof.
  unfold create_gpio. run. rewrite <- !app_assoc. reflexivity.
Qed.

(** The calls of the serial factory that precede the bound check. *)
Lemma create_usart_prefix (host : Host) (index : stm32_usart_index_t)
    (caps : STM32Capabilities) (w : World) :
  let obj := Obj_child (w_next_obj w) in
  exists rest,
    w_trace (outcome_world (create_usart host index caps w)) =
    w_trace w ++
      [E_object_new (container (w_mcu w)) (usart_child_name index)
         TYPE_STM32_USART obj;
       E_prop_set obj "port-index" (V_int (usart_index_value index));
       E_prop_set obj "capabilities" (V_capabilities caps);
       E_prop_set obj "rcc" (V_device (rcc (w_mcu w)));
       E_prop_set obj "nvic" (V_device (nvic (parent_obj (w_mcu w))))]
      ++ rest /\
    Forall (fun e => is_object_new e = false) rest.
Proof.
  unfold create_usart. run.
  destruct (bool_decide (usart_index_value index >= MAX_SERIAL_PORTS host)); run.
  { exists []. rewrite <- !app_assoc. split; [reflexivity | constructor]. }
  destruct (mjoin (serial_hds host !! Z.to_nat (usart_index_value index))); run.
  { eexists [_; _]. rewrite <- !app_assoc. split; [reflexivity |].
    repeat constructor. }
  destruct (host_chr_new host (usart_chardev_name index) "null"); run.
  - eexists [_; _; _]. rewrite <- !app_assoc. split; [reflexivity |].
    repeat constructor.
  - eexists [_]. rewrite <- !app_assoc. split; [reflexivity |].
    repeat constructor.
Qed.

(** C2, as stated, fails: on a machine without serial back ends the
    factory does abort for USART1, but by then the child node has been
    allocated and four properties injected. *)
Lemma create_usart_allocates_before_bound_check :
  usart_index_value STM32_USART_1 >= MAX_SERIAL_PORTS host_without_serial /\
  ~ (exists f w',
       create_usart host_without_serial STM32_USART_1 sample_capabilities
         world_before_serial = Aborts f w' /\
       Forall (fun e => is_object_new e = false /\ is_prop_set e = false)
         (events_since world_before_serial w')).
Proof.
  split; [vm_compute; discriminate |].
  intros (f & w' & Hrun & Hnone).
  vm_compute in Hrun. injection Hrun as _ <-.
  vm_compute in Hnone.
  apply Forall_inv in Hnone. destruct Hnone as [Hnew _]. discriminate Hnew.
Qed.

(** C2, amended: for an index at or beyond [MAX_SERIAL_PORTS] the serial
    factory aborts through [hw_error]; the abort comes after the child node
    was allocated and its port index, capabilities, clock controller and
    interrupt controller were injected, and before any backing stream is
    resolved, the node realized or the slot written. *)
Theorem create_usart_beyond_serial_ports (host : Host)
    (index : stm32_usart_index_t) (caps : STM32Capabilities) (w : World) :
  usart_index_value index >= MAX_SERIAL_PORTS host ->
  let obj := Obj_child (w_next_obj w) in
  exists msg w',
    create_usart host index caps w = Aborts (Hw_error msg) w' /\
    events_since w w' =
      [E_object_new (container (w_mcu w)) (usart_child_name index)
         TYPE_STM32_USART obj;
       E_prop_set obj "port-index" (V_int (usart_index_value index));
       E_prop_set obj "capabilities" (V_capabilities caps);
       E_prop_set obj "rcc" (V_device (rcc (w_mcu w)));
       E_prop_set obj "nvic" (V_device (nvic (parent_obj (w_mcu w))))] /\
    w_mcu w' = w_mcu w.
Proof.
  intros Hge obj. unfold create_usart. run.
  rewrite bool_decide_true by exact Hge.
  eexists _, _. split; [reflexivity |]. split; [| reflexivity].
  apply events_since_app. cbn [w_trace]. rewrite <- !app_assoc. reflexivity.
Qed.

Lemma create_usart_beyond_serial_ports_witness :
  exists msg w',
    create_usart host_without_serial STM32_USART_1 sample_capabilities
      world_before_serial = Aborts (Hw_error msg) w' /\
    child_names (events_since world_before_serial w') = ["usart[1]"] /\
    w_mcu w' = w_mcu world_before_serial.
Proof.
  destruct (create_usart_beyond_serial_ports host_without_serial STM32_USART_1
              sample_capabilities world_before_serial)
    as (msg & w' & Hrun & Hev & Hmcu).
  - vm_compute. discriminate.
  - exists msg, w'. split; [exact Hrun |]. split; [| exact Hmcu].
    rewrite Hev. reflexivity.
Defined.


(** The serial factory within the host's serial ports: the three ways it
    can end. *)
Lemma create_usart_runs (host : Host) (index : stm32_usart_index_t)
    (caps : STM32Capabilities) (w : World) :
  usart_index_value index < MAX_SERIAL_PORTS host ->
  let obj := Obj_child (w_next_obj w) in
  let wiring :=
    [E_object_new (container (w_mcu w)) (usart_child_name index)
       TYPE_STM32_USART obj;
     E_prop_set obj "port-index" (V_int (usart_index_value index));
     E_prop_set obj "capabilities" (V_capabilities caps);
     E_prop_set obj "rcc" (V_device (rcc (w_mcu w)));
     E_prop_set obj "nvic" (V_device (nvic (parent_obj (w_mcu w))))] in
  let bound chr calls :=
    Returns tt
      (set_w_mcu
         (set_usart
            (<[Z.to_nat (usart_index_value index) := Some obj]> (usart (w_mcu w)))
            (w_mcu w))
         (set_w_next_obj (S (w_next_obj w))
            (set_w_trace
               (w_trace w ++ wiring ++ calls ++
                  [E_prop_set obj "chardev" (V_chr chr); E_realize obj])
               w))) in
  create_usart host index caps w =
  match mjoin (serial_hds host !! Z.to_nat (usart_index_value index)) with
  | Some chr => bound chr []
  | None =>
      match host_chr_new host (usart_chardev_name index) "null" with
      | Some chr =>
          bound chr [E_chr_new (usart_chardev_name index) "null" (Some chr)]
      | None =>
          Aborts
            (Hw_error ("Can't assign serial port to " +:+ usart_child_name index
                       +:+ "." +:+ newline))
            (set_w_next_obj (S (w_next_obj w))
               (set_w_trace
                  (w_trace w ++ wiring ++
                     [E_chr_new (usart_chardev_name index) "null" None])
                  w))
      end
  end.
Proof.
  intros Hlt obj wiring bound. subst bound wiring obj.
  unfold create_usart. run.
  rewrite bool_decide_false by lia. run.
  destruct (mjoin (serial_hds host !! Z.to_nat (usart_index_value index)))
    as [chr|]; run.
  { rewrite <- !app_assoc. reflexivity. }
  destruct (host_chr_new host (usart_chardev_name index) "null") as [chr|]; run;
    rewrite <- !app_assoc; reflexivity.
Qed.



(** ** Child names *)

Lemma child_allocations_app (t1 t2 : list Event) :
  child_allocations (t1 ++ t2) = child_allocations t1 ++ child_allocations t2.
Proof. unfold child_allocations. apply omap_app. Qed.

Lemma child_allocations_none (t : list Event) :
  Forall (fun e => is_object_new e = false) t -> child_allocations t = [].
Proof.
  induction 1 as [|e t He _ IH]; [reflexivity |].
  destruct e; try discriminate He; cbn; exact IH.
Qed.

(** C5, as stated, fails for serial ports 4 and 5: an instance composed
    with UART4 has a child named "usart[4]" and none named "uart[4]". *)
Lemma uart4_child_is_named_usart :
  has_uart4 sample_capabilities = true /\
  exists w',
    stm32_mcu_realize_callback sample_host sample_world = Returns None w' /\
    child_names (events_since sample_world w') =
      ["rcc"; "flash"; "pwr"; "gpio[a]"; "gpio[b]"; "usart[1]"; "usart[4]"] /\
    ~ In "uart[4]" (child_names (events_since sample_world w')).
Proof.
  split; [reflexivity |].
  eexists. split; [vm_compute; reflexivity |].
  split; [vm_compute; reflexivity |].
  vm_compute. intros H.
  repeat (destruct H as [H|H]; [discriminate H |]). exact H.
Qed.

(** C5, amended: every GPIO child is allocated under the instance's
    container with the name "gpio[a]" to "gpio[g]" of its port letter, and
    every serial child, ports 4 and 5 included, under the same container
    with the name "usart[1]" to "usart[6]" of its 1-based port number. *)
Theorem factory_child_names :
  (forall (i : stm32_gpio_index_t) (caps : STM32Capabilities) (w : World),
     child_allocations (events_since w (outcome_world (create_gpio i caps w))) =
     [(container (w_mcu w), gpio_child_name i, TYPE_STM32_GPIO)]) /\
  (forall (host : Host) (j : stm32_usart_index_t) (caps : STM32Capabilities)
          (w : World),
     child_allocations
       (events_since w (outcome_world (create_usart host j caps w))) =
     [(container (w_mcu w), usart_child_name j, TYPE_STM32_USART)]) /\
  map gpio_child_name
    [STM32_GPIO_PORT_A; STM32_GPIO_PORT_B; STM32_GPIO_PORT_C; STM32_GPIO_PORT_D;
     STM32_GPIO_PORT_E; STM32_GPIO_PORT_F; STM32_GPIO_PORT_G] =
  ["gpio[a]"; "gpio[b]"; "gpio[c]"; "gpio[d]"; "gpio[e]"; "gpio[f]"; "gpio[g]"] /\
  map usart_child_name
    [STM32_USART_1; STM32_USART_2; STM32_USART_3; STM32_UART_4; STM32_UART_5;
     STM32_USART_6] =
  ["usart[1]"; "usart[2]"; "usart[3]"; "usart[4]"; "usart[5]"; "usart[6]"].
Proof.
  split; [| split; [| split; reflexivity]].
  - intros i caps w. rewrite create_gpio_runs.
    erewrite events_since_app by (run; reflexivity). reflexivity.
  - intros host j caps w.
    destruct (create_usart_prefix host j caps w) as (rest & Htrace & Hrest).
    rewrite (events_since_app _ _ _ Htrace).
    rewrite child_allocations_app, (child_allocations_none rest Hrest).
    reflexivity.
Qed.

(** ** The composer before any peripheral work *)

(** The constructor is the parent step followed, on success, by the
    device part. *)
Lemma realize_unfold (host : Host) (w : World) :
  let base := host_parent_realize host (parent_obj (w_mcu w)) in
  let w1 :=
    set_w_mcu (set_parent_obj base.1 (w_mcu w))
      (set_w_log (w_log w ++ [Log_function_name "stm32_mcu_realize_callback"])
         (set_w_trace
            (w_trace w ++
               [E_parent_realize TYPE_STM32_MCU (bool_decide (base.2 = None))])
            w)) in
  stm32_mcu_realize_callback host w =
  match base.2 with
  | Some err => Returns (Some err) w1
  | None => stm32_mcu_realize_devices host w1
  end.
Proof.
  intros base w1. unfold stm32_mcu_realize_callback.
  rewrite bind_run. unfold qemu_log_function_name, qemu_log at 1.
  rewrite bind_run. unfold cm_device_parent_realize at 1. run.
  subst w1 base.
  destruct (host_parent_realize host (parent_obj (w_mcu w))) as [cm' [err|]];
    reflexivity.
Qed.

(** C9: when the base construction step fails, the composer returns at
    once with the error of that step; beyond the function-name line in the
    log and the base step itself nothing has happened: no family line, no
    container, no region, no allocation, no slot written. *)
Theorem realize_base_failure (host : Host) (w : World)
    (cm' : CortexMState) (err : Error) :
  host_parent_realize host (parent_obj (w_mcu w)) = (cm', Some err) ->
  stm32_mcu_realize_callback host w =
  Returns (Some err)
    (set_w_mcu (set_parent_obj cm' (w_mcu w))
       (set_w_log (w_log w ++ [Log_function_name "stm32_mcu_realize_callback"])
          (set_w_trace (w_trace w ++ [E_parent_realize TYPE_STM32_MCU false])
             w))).
Proof.
  intros Hbase. rewrite realize_unfold. cbv zeta. rewrite Hbase. reflexivity.
Qed.

Lemma realize_base_failure_witness :
  exists w',
    stm32_mcu_realize_callback host_base_failure sample_world =
      Returns (Some "cortexm realize failed") w' /\
    w_log w' = [Log_function_name "stm32_mcu_realize_callback"] /\
    w_trace w' = [E_parent_realize TYPE_STM32_MCU false] /\
    w_regions w' = [] /\ w_subregions w' = [] /\
    w_mcu w' = w_mcu sample_world.
Proof.
  eexists. split.
  - apply (realize_base_failure host_base_failure sample_world sample_cortexm).
    reflexivity.
  - repeat split; reflexivity.
Defined.

(** C8, as stated, fails: with the capabilities property unset and a base
    step that fails, the composer does not abort; it returns the base
    step's error. *)
Lemma realize_without_capabilities_not_always_fatal :
  param_capabilities (w_mcu world_without_capabilities) = None /\
  ~ (exists f w',
       stm32_mcu_realize_callback host_base_failure world_without_capabilities =
       Aborts f w').
Proof.
  split; [reflexivity |].
  intros (f & w' & Hrun). vm_compute in Hrun. discriminate Hrun.
Qed.

(** C8, amended: with the capabilities property unset the composer never
    completes and constructs nothing.  After a successful base step it
    aborts on the assertion; after a failed base step it returns that
    step's error.  Either way the base step is the only call made: no
    bitband, no region, no child node, no slot written. *)
Theorem realize_without_capabilities (host : Host) (w : World) :
  param_capabilities (w_mcu w) = None ->
  let base := host_parent_realize host (parent_obj (w_mcu w)) in
  let w1 :=
    set_w_mcu (set_parent_obj base.1 (w_mcu w))
      (set_w_log (w_log w ++ [Log_function_name "stm32_mcu_realize_callback"])
         (set_w_trace
            (w_trace w ++
               [E_parent_realize TYPE_STM32_MCU (bool_decide (base.2 = None))])
            w)) in
  stm32_mcu_realize_callback host w =
  match base.2 with
  | None => Aborts (Assert_failed "capabilities != NULL") w1
  | Some err => Returns (Some err) w1
  end.
Proof.
  intros Hnull base w1. rewrite realize_unfold. fold base. fold w1.
  destruct (base.2) as [err|]; [reflexivity |].
  unfold stm32_mcu_realize_devices.
  rewrite bind_run. unfold get_mcu at 1. rewrite bind_run.
  replace (param_capabilities (w_mcu w1)) with (@None STM32Capabilities)
    by (symmetry; exact Hnull).
  reflexivity.
Qed.

Lemma realize_without_capabilities_witness :
  exists w',
    stm32_mcu_realize_callback sample_host world_without_capabilities =
      Aborts (Assert_failed "capabilities != NULL") w' /\
    w_trace w' = [E_parent_realize TYPE_STM32_MCU true] /\
    w_regions w' = [] /\ w_subregions w' = [] /\
    w_mcu w' = w_mcu world_without_capabilities.
Proof.
  eexists. split.
  - apply (realize_without_capabilities sample_host world_without_capabilities).
    reflexivity.
  - repeat split; reflexivity.
Defined.

(** ** The memory-regions hook *)

(** C10, amended: the hook that the class initialiser installs calls the
    Cortex-M routine and adds no step of its own on the device.  From every
    world both return, and the worlds they return agree on the instance
    state, the allocations, the region heap, the address map and the trace
    of calls; they differ in the diagnostic log alone, to which the hook
    adds its function-name line. *)
Theorem memory_regions_create_hook_is_base (host : Host)
    (klass : STM32MCUClass) (w : World) :
  let hook :=
    memory_regions_create (cm_class (stm32_mcu_class_init_callback host klass)) in
  exists w_hook w_base,
    hook w = Returns tt w_hook /\
    cortexm_mcu_memory_regions_create host w = Returns tt w_base /\
    same_but_log w_hook w_base /\
    w_log w_base = w_log w /\
    w_log w_hook =
      w_log w ++ [Log_function_name "stm32_mcu_memory_regions_create_callback"].
Proof.
  intros hook. subst hook. cbn [stm32_mcu_class_init_callback cm_class memory_regions_create].
  unfold stm32_mcu_memory_regions_create_callback, CORTEXM_MCU_CLASS,
    object_class_by_name, cortexm_mcu_class, cortexm_mcu_memory_regions_create,
    base_memory_setup.
  run. cbn [memory_regions_create]. run.
  destruct (host_memory_regions_create host (w_regions w, w_subregions w))
    as [regions subregions].
  eexists _, _. split; [reflexivity |]. split; [reflexivity |].
  repeat split; reflexivity.
Qed.

(** C10, as stated, fails: the hook and the Cortex-M routine do not end in
    the same world.  Run from the sample world, the routine leaves the
    diagnostic log empty and the hook leaves its function-name line in
    it. *)
Lemma memory_regions_create_hook_logs_its_name :
  let hook :=
    memory_regions_create
      (cm_class (stm32_mcu_class_init_callback sample_host blank_class)) in
  exists w_hook w_base,
    hook sample_world = Returns tt w_hook /\
    cortexm_mcu_memory_regions_create sample_host sample_world =
      Returns tt w_base /\
    w_log w_base = [] /\
    w_log w_hook =
      [Log_function_name "stm32_mcu_memory_regions_create_callback"] /\
    hook sample_world <>
      cortexm_mcu_memory_regions_create sample_host sample_world.
Proof.
  eexists _, _. split; [vm_compute; reflexivity |].
  split; [vm_compute; reflexivity |].
  split; [reflexivity |]. split; [reflexivity |].
  vm_compute. discriminate.
Qed.

(** ** Reset *)

Lemma set_w_trace_same (w : World) : set_w_trace (w_trace w) w = w.
Proof. destruct w; reflexivity. Qed.

(** One slot loop of the reset walk: the populated slots among
    [i, i + n), lowest index first. *)
Lemma for_from_reset_slots (sel : STM32MCUState -> list (option DeviceState))
    (n i : nat) (w : World) :
  for_from n i
    (fun i => state ← get_mcu; reset_if_present (mjoin (sel state !! i))) w =
  Returns tt
    (set_w_trace
       (w_trace w ++
          map E_device_reset (omap id (take n (drop i (sel (w_mcu w))))))
       w).
Proof.
  revert i w. induction n as [|n IH]; intros i w.
  - cbn. rewrite app_nil_r, set_w_trace_same. reflexivity.
  - assert (Hbody :
      (state ← get_mcu; reset_if_present (mjoin (sel state !! i))) w =
      Returns tt
        (match mjoin (sel (w_mcu w) !! i) with
         | Some dev => set_w_trace (w_trace w ++ [E_device_reset dev]) w
         | None => w
         end)).
    { run. destruct (mjoin (sel (w_mcu w) !! i)); reflexivity. }
    cbn [for_from]. rewrite bind_run. cbv beta. rewrite Hbody. clear Hbody.
    rewrite IH.
    destruct (sel (w_mcu w) !! i) as [slot|] eqn:Hslot.
    + rewrite (drop_S _ _ _ Hslot). cbn [take omap mjoin option_join].
      destruct slot as [dev|]; cbn [id option_bind mbind]; run.
      * rewrite <- app_assoc. reflexivity.
      * reflexivity.
    + apply lookup_ge_None_1 in Hslot. cbn [mjoin option_join].
      rewrite !drop_ge by lia. rewrite !take_nil. reflexivity.
Qed.

(** One reset: it returns, leaves the instance untouched, adds its
    function-name line to the log and makes exactly the calls of
    [reset_walk]. *)
Lemma reset_runs (w : World) :
  slot_arrays_sized (w_mcu w) ->
  stm32_mcu_reset_callback w =
  Returns tt
    (set_w_log (w_log w ++ [Log_function_name "stm32_mcu_reset_callback"])
       (set_w_trace (w_trace w ++ reset_walk (w_mcu w)) w)).
Proof.
  intros [Hgpio Husart]. unfold stm32_mcu_reset_callback, reset_walk.
  set (gpio_loop := for_upto STM32_MAX_GPIO _).
  set (usart_loop := for_upto STM32_MAX_USART _).
  assert (Hloops : forall w0,
            w_mcu w0 = w_mcu w ->
            (gpio_loop;; usart_loop) w0 =
            Returns tt
              (set_w_trace
                 (w_trace w0 ++
                    map E_device_reset (omap id (gpio (w_mcu w))) ++
                    map E_device_reset (omap id (usart (w_mcu w))))
                 w0)).
  { intros w0 Hmcu. subst gpio_loop usart_loop. unfold for_upto.
    rewrite bind_run, (for_from_reset_slots gpio).
    rewrite (for_from_reset_slots usart). run.
    rewrite Hmcu, !drop_0, !take_ge by lia.
    rewrite <- app_assoc. reflexivity. }
  clearbody gpio_loop usart_loop.
  destruct (rcc (w_mcu w)) as [rcc_dev|] eqn:Hrcc,
           (flash (w_mcu w)) as [flash_dev|] eqn:Hflash;
    run; rewrite Hrcc; run; rewrite Hflash; run;
    change (match gpio_loop ?w0 with
            | Returns _ w' => usart_loop w'
            | Aborts f w' => Aborts f w'
            end) with ((gpio_loop;; usart_loop) w0);
    rewrite Hloops by reflexivity; run; rewrite <- !app_assoc; reflexivity.
Qed.

(** C3: a reset returns without error and calls, in this order, the
    inherited reset, the reset of the clock controller if there is one, of
    the flash controller if there is one, of every populated GPIO slot in
    array order and of every populated serial slot in array order; and [n]
    resets in a row return without error, make that same walk [n] times
    and leave the instance as it was. *)
Theorem reset_walks_in_order (n : nat) (w : World) :
  slot_arrays_sized (w_mcu w) ->
  let walk :=
    [E_parent_reset TYPE_STM32_MCU]
    ++ map E_device_reset (option_list (rcc (w_mcu w)))
    ++ map E_device_reset (option_list (flash (w_mcu w)))
    ++ map E_device_reset (omap id (gpio (w_mcu w)))
    ++ map E_device_reset (omap id (usart (w_mcu w))) in
  exists w',
    reset_times n w = Returns tt w' /\
    events_since w w' = concat (replicate n walk) /\
    w_mcu w' = w_mcu w.
Proof.
  intros Hsized walk. change walk with (reset_walk (w_mcu w)). clear walk.
  assert (Hgen : forall w0,
            w_mcu w0 = w_mcu w ->
            exists w',
              reset_times n w0 = Returns tt w' /\
              w_trace w' = w_trace w0 ++ concat (replicate n (reset_walk (w_mcu w))) /\
              w_mcu w' = w_mcu w).
  { induction n as [|n IH]; intros w0 Hmcu.
    - exists w0. cbn. rewrite app_nil_r. auto.
    - cbn [reset_times]. rewrite bind_run, reset_runs by (rewrite Hmcu; exact Hsized).
      destruct (IH (set_w_log
                      (w_log w0 ++ [Log_function_name "stm32_mcu_reset_callback"])
                      (set_w_trace (w_trace w0 ++ reset_walk (w_mcu w0)) w0)))
        as (w' & Hrun & Htrace & Hmcu'); [exact Hmcu |].
      exists w'. split; [exact Hrun |]. split; [| exact Hmcu'].
      rewrite Htrace. cbn [replicate concat w_trace set_w_log set_w_trace].
      rewrite Hmcu, <- app_assoc. reflexivity. }
  destruct (Hgen w eq_refl) as (w' & Hrun & Htrace & Hmcu).
  exists w'. split; [exact Hrun |]. split; [| exact Hmcu].
  apply events_since_app. exact Htrace.
Qed.

Lemma reset_walks_in_order_witness :
  slot_arrays_sized (w_mcu sample_composed_world) /\
  exists w',
    reset_times 2 sample_composed_world = Returns tt w' /\
    events_since sample_composed_world w' =
      [E_parent_reset TYPE_STM32_MCU;
       E_device_reset (Obj_child 0); E_device_reset (Obj_child 1);
       E_device_reset (Obj_child 3); E_device_reset (Obj_child 4);
       E_device_reset (Obj_child 5); E_device_reset (Obj_child 6);
       E_parent_reset TYPE_STM32_MCU;
       E_device_reset (Obj_child 0); E_device_reset (Obj_child 1);
       E_device_reset (Obj_child 3); E_device_reset (Obj_child 4);
       E_device_reset (Obj_child 5); E_device_reset (Obj_child 6)].
Proof.
  assert (Hsized : slot_arrays_sized (w_mcu sample_composed_world))
    by (split; reflexivity).
  split; [exact Hsized |].
  destruct (reset_walks_in_order 2 sample_composed_world Hsized)
    as (w' & Hrun & Hcalls & _).
  exists w'. split; [exact Hrun |]. rewrite Hcalls. reflexivity.
Defined.

(** The reset walk does not read the power-controller reference. *)
Lemma reset_walk_ignores_pwr (p : option DeviceState) (s : STM32MCUState) :
  reset_walk (set_pwr p s) = reset_walk s.
Proof. reflexivity. Qed.

Lemma resets_of_app (dev : DeviceState) (t1 t2 : list Event) :
  resets_of dev (t1 ++ t2) = (resets_of dev t1 + resets_of dev t2)%nat.
Proof. unfold resets_of. rewrite filter_app, length_app. reflexivity. Qed.

Lemma resets_of_absent (dev : DeviceState) (devs : list DeviceState) :
  dev ∉ devs -> resets_of dev (map E_device_reset devs) = 0%nat.
Proof.
  unfold resets_of. induction devs as [|d devs IH]; intros Hnotin.
  - reflexivity.
  - apply not_elem_of_cons in Hnotin as [Hne Hnotin].
    cbn [map]. rewrite filter_cons. cbn [is_device_reset_of].
    rewrite decide_False.
    + apply IH. exact Hnotin.
    + rewrite bool_decide_eq_true. congruence.
Qed.

(** A device that is referenced from the power-controller slot only is
    passed over by the reset walk. *)
Lemma reset_passes_over_pwr (w w' : World) (dev : DeviceState) :
  slot_arrays_sized (w_mcu w) ->
  pwr (w_mcu w) = Some dev ->
  rcc (w_mcu w) <> Some dev ->
  flash (w_mcu w) <> Some dev ->
  Some dev ∉ gpio (w_mcu w) ->
  Some dev ∉ usart (w_mcu w) ->
  stm32_mcu_reset_callback w = Returns tt w' ->
  resets_of dev (events_since w w') = 0%nat.
Proof.
  intros Hsized _ Hrcc Hflash Hgpio Husart Hrun.
  rewrite reset_runs in Hrun by exact Hsized. injection Hrun as <-.
  erewrite events_since_app by reflexivity.
  unfold reset_walk. rewrite !resets_of_app.
  assert (Hopt : forall p, p <> Some dev ->
            resets_of dev (map E_device_reset (option_list p)) = 0%nat).
  { intros [d|] Hne; [| reflexivity].
    apply resets_of_absent. intros Hin. apply list_elem_of_singleton in Hin.
    congruence. }
  assert (Hslots : forall slots, Some dev ∉ slots ->
            resets_of dev (map E_device_reset (omap id slots)) = 0%nat).
  { intros slots Hnotin. apply resets_of_absent. intros Hin.
    apply list_elem_of_omap in Hin as (slot & Hin & Hslot).
    cbn in Hslot. subst slot. contradiction. }
  rewrite (Hopt _ Hrcc), (Hopt _ Hflash), (Hslots _ Hgpio), (Hslots _ Husart).
  reflexivity.
Qed.

(** C4 at its failing input: an instance composed with [has_pwr] owns a
    power-controller child, and a reset event forwards one reset to each of
    the other six children and none to the power controller. *)
Theorem reset_skips_power_controller :
  has_pwr sample_capabilities = true /\
  exists w1 w2,
    stm32_mcu_realize_callback sample_host sample_world = Returns None w1 /\
    rcc (w_mcu w1) = Some (Obj_child 0) /\
    flash (w_mcu w1) = Some (Obj_child 1) /\
    pwr (w_mcu w1) = Some (Obj_child 2) /\
    omap id (gpio (w_mcu w1)) = [Obj_child 3; Obj_child 4] /\
    omap id (usart (w_mcu w1)) = [Obj_child 5; Obj_child 6] /\
    stm32_mcu_reset_callback w1 = Returns tt w2 /\
    map (fun n => resets_of (Obj_child n) (events_since w1 w2))
      [0; 1; 2; 3; 4; 5; 6]%nat = [1; 1; 0; 1; 1; 1; 1]%nat.
Proof.
  split; [reflexivity |].
  eexists _, _.
  split; [vm_compute; reflexivity |].
  do 5 (split; [reflexivity |]).
  split; [vm_compute; reflexivity |].
  vm_compute. reflexivity.
Qed.

(** ** Frames for the blocks of the constructor *)

Lemma respects_ret (R : World -> World -> Prop) `{!Reflexive R}
    {A : Type} (a : A) :
  respects R (mret a : M A).
Proof. intros w. cbn. reflexivity. Qed.

Lemma respects_bind (R : World -> World -> Prop) `{!Transitive R}
    {A B : Type} (m : M A) (k : A -> M B) :
  respects R m -> (forall a, respects R (k a)) -> respects R (m ≫= k).
Proof.
  intros Hm Hk w. rewrite bind_run. specialize (Hm w).
  destruct (m w) as [a w1|f w1]; cbn in Hm |- *.
  - transitivity w1; [exact Hm | apply Hk].
  - exact Hm.
Qed.

Lemma respects_when (R : World -> World -> Prop) `{!Reflexive R}
    (cond : bool) (body : M unit) :
  respects R body -> respects R (when cond body).
Proof.
  intros Hbody. destruct cond; [exact Hbody |]. apply respects_ret; exact _.
Qed.

#[global] Instance off_memory_map_refl : Reflexive off_memory_map.
Proof.
  intros w. repeat split. exists []. rewrite app_nil_r. split; [reflexivity | constructor].
Qed.

#[global] Instance off_memory_map_trans : Transitive off_memory_map.
Proof.
  intros w1 w2 w3 (Hr1 & Hs1 & d1 & Ht1 & Hd1) (Hr2 & Hs2 & d2 & Ht2 & Hd2).
  split; [congruence |]. split; [congruence |].
  exists (d1 ++ d2). split.
  - rewrite Ht2, Ht1, app_assoc. reflexivity.
  - apply Forall_app. split; assumption.
Qed.

(** Closes [off_memory_map w w'] once [w'] is an explicit world. *)
Ltac solve_off_memory_map :=
  split; [reflexivity |]; split; [reflexivity |];
  cbn [w_trace]; rewrite <- ?app_assoc; eexists; split; [reflexivity |];
  repeat constructor.

Lemma create_gpio_off_memory_map (index : stm32_gpio_index_t)
    (caps : STM32Capabilities) :
  respects off_memory_map (create_gpio index caps).
Proof.
  intros w. rewrite create_gpio_runs. run. solve_off_memory_map.
Qed.

Lemma create_usart_off_memory_map (host : Host) (index : stm32_usart_index_t)
    (caps : STM32Capabilities) :
  respects off_memory_map (create_usart host index caps).
Proof.
  intros w. unfold create_usart. run.
  destruct (bool_decide (usart_index_value index >= MAX_SERIAL_PORTS host)); run.
  { solve_off_memory_map. }
  destruct (mjoin (serial_hds host !! Z.to_nat (usart_index_value index))); run.
  { solve_off_memory_map. }
  destruct (host_chr_new host (usart_chardev_name index) "null"); run;
    solve_off_memory_map.
Qed.

Lemma rcc_setup_off_memory_map (caps : STM32Capabilities) :
  respects off_memory_map (rcc_setup caps).
Proof. intros w. unfold rcc_setup. run. solve_off_memory_map. Qed.

Lemma flash_setup_off_memory_map (caps : STM32Capabilities) :
  respects off_memory_map (flash_setup caps).
Proof. intros w. unfold flash_setup. run. solve_off_memory_map. Qed.

Lemma pwr_setup_off_memory_map (caps : STM32Capabilities) :
  respects off_memory_map (pwr_setup caps).
Proof.
  intros w. unfold pwr_setup. destruct (has_pwr caps); run.
  - solve_off_memory_map.
  - reflexivity.
Qed.

Create HintDb frames.

#[global] Hint Resolve create_gpio_off_memory_map create_usart_off_memory_map
  rcc_setup_off_memory_map flash_setup_off_memory_map
  pwr_setup_off_memory_map : frames.

(** Walks a sequence of statements, framing each of them. *)
Ltac frame_sequence :=
  repeat lazymatch goal with
  | |- respects _ (_ ≫= _) => apply respects_bind; [exact _ | | intros _]
  | |- respects _ (when _ _) => apply respects_when; [exact _ |]
  | |- respects _ (mret _) => apply respects_ret; exact _
  | |- respects _ _ => solve [auto with frames]
  end.

Lemma gpio_setup_off_memory_map (caps : STM32Capabilities) :
  respects off_memory_map (gpio_setup caps).
Proof. unfold gpio_setup. frame_sequence. Qed.

Lemma usart_setup_off_memory_map (host : Host) (caps : STM32Capabilities) :
  respects off_memory_map (usart_setup host caps).
Proof. unfold usart_setup. frame_sequence. Qed.

#[global] Hint Resolve gpio_setup_off_memory_map usart_setup_off_memory_map
  : frames.

(** ** The address alias *)

Lemma alter_last {A : Type} (f : A -> A) (l : list A) (x : A) :
  alter f (length l) (l ++ [x]) = l ++ [f x].
Proof.
  rewrite alter_app_r_alt by lia. rewrite Nat.sub_diag. reflexivity.
Qed.

(** The constructor from the descriptor check up to and including the
    bitband block, for a descriptor [D]: the world it hands to the clock
    controller block. *)
Lemma realize_devices_head (host : Host) (D : STM32Capabilities) (w : World) :
  param_capabilities (w_mcu w) = Some D ->
  let stm32 := Obj_container (Some Obj_dev) "/stm32" in
  let cm_state := parent_obj (w_mcu w) in
  let alias :=
    {| mr_owner := Some (Obj_container (cm_container cm_state) "/memory");
       mr_name := "mem-flash-alias";
       mr_alias := Some MR_flash_mem;
       mr_alias_offset := uint64_of 0;
       mr_size := uint64_of (int_of (flash_size_kb cm_state * 1024));
       mr_readonly := true |} in
  let w3 :=
    {| w_mcu := set_container (Some stm32) (set_capabilities (Some D) (w_mcu w));
       w_next_obj := w_next_obj w;
       w_regions := w_regions w ++ [alias];
       w_subregions :=
         w_subregions w ++
           [{| sub_parent := MR_system_memory; sub_offset := 0x08000000;
               sub_region := MR_heap (length (w_regions w)) |}];
       w_log :=
         w_log w ++
           [Log_trace ("STM32 Family: " +:+ family_label (family D) +:+ newline)];
       w_trace :=
         w_trace w ++
           [E_container_get (Some Obj_dev) "/stm32";
            E_container_get (cm_container cm_state) "/memory"] ++
           (if has_periph_bitband D
            then [E_bitband_init (Some stm32) "periph-bitband" 0x40000000]
            else []) |} in
  stm32_mcu_realize_devices host w =
  (rcc_setup D;; flash_setup D;; pwr_setup D;; gpio_setup D;;
   usart_setup host D;; mret None) w3.
Proof.
  intros Hcaps stm32 cm_state alias w3. subst w3 alias cm_state stm32.
  unfold stm32_mcu_realize_devices, flash_alias_setup, periph_bitband_setup,
    g_malloc_MemoryRegion, memory_region_init_alias, memory_region_set_readonly,
    memory_region_add_subregion, update_region, get_system_memory.
  run. rewrite Hcaps. run.
  rewrite ?length_alter, !alter_last.
  destruct (has_periph_bitband D); run;
    rewrite <- ?app_assoc, ?app_nil_r; reflexivity.
Qed.

(** Everything after the bitband block stays off the memory map. *)
Lemma realize_tail_off_memory_map (host : Host) (D : STM32Capabilities) :
  respects off_memory_map
    (rcc_setup D;; flash_setup D;; pwr_setup D;; gpio_setup D;;
     usart_setup host D;; mret None : M (option Error)).
Proof. frame_sequence. Qed.

(** X17: in every run of the composer that has a realized base and a
    descriptor, and whose flash size in bytes fits the C [int] it is
    computed in, whatever the chip family and the presence flags and
    whether or not a later factory aborts, exactly one region is added to
    the heap and to the address map: an alias of the flash backing store
    from offset 0, as large as the configured flash in bytes, read-only,
    mapped into system memory at 0x08000000; a read at byte [k] of it is a
    read at byte [k] of the flash backing store. *)
Theorem realize_flash_alias (host : Host) (w : World)
    (D : STM32Capabilities) (cm' : CortexMState) :
  param_capabilities (w_mcu w) = Some D ->
  host_parent_realize host (parent_obj (w_mcu w)) = (cm', None) ->
  0 <= flash_size_kb cm' * 1024 < 2 ^ 31 ->
  let w' := outcome_world (stm32_mcu_realize_callback host w) in
  let alias := MR_heap (length (w_regions w)) in
  w_regions w' =
    w_regions w ++
      [{| mr_owner := Some (Obj_container (cm_container cm') "/memory");
          mr_name := "mem-flash-alias";
          mr_alias := Some MR_flash_mem;
          mr_alias_offset := 0;
          mr_size := flash_size_kb cm' * 1024;
          mr_readonly := true |}] /\
  w_subregions w' =
    w_subregions w ++
      [{| sub_parent := MR_system_memory; sub_offset := 0x08000000;
          sub_region := alias |}] /\
  forall (store : MemoryRegionRef -> Z -> Z) (k : Z),
    0 <= k < flash_size_kb cm' * 1024 ->
    region_read store (w_regions w') alias k = Some (store MR_flash_mem k).
Proof.
  intros Hcaps Hbase Hsize w' alias.
  assert (Hint : uint64_of (int_of (flash_size_kb cm' * 1024)) =
                 flash_size_kb cm' * 1024).
  { unfold uint64_of, int_of.
    rewrite (Z.mod_small (flash_size_kb cm' * 1024 + 2 ^ 31)) by lia.
    rewrite Z.mod_small by lia. lia. }
  assert (Hregions :
    w_regions w' =
      w_regions w ++
        [{| mr_owner := Some (Obj_container (cm_container cm') "/memory");
            mr_name := "mem-flash-alias";
            mr_alias := Some MR_flash_mem;
            mr_alias_offset := 0;
            mr_size := flash_size_kb cm' * 1024;
            mr_readonly := true |}] /\
    w_subregions w' =
      w_subregions w ++
        [{| sub_parent := MR_system_memory; sub_offset := 0x08000000;
            sub_region := alias |}]).
  { subst w' alias. rewrite realize_unfold. cbv zeta. rewrite Hbase.
    cbn [fst snd].
    rewrite (realize_devices_head host D) by exact Hcaps. cbv zeta.
    match goal with
    | |- context [outcome_world (?m ?w3)] =>
        destruct (realize_tail_off_memory_map host D w3) as (Hr & Hs & _)
    end.
    rewrite Hr, Hs. cbn [w_regions w_subregions w_mcu set_w_mcu set_w_log
      set_w_trace set_parent_obj parent_obj].
    rewrite Hint. split; reflexivity. }
  destruct Hregions as [Hr Hs]. split; [exact Hr |]. split; [exact Hs |].
  intros store k Hk. subst alias. unfold region_read, region_access.
  rewrite Hr. rewrite list_lookup_middle by reflexivity.
  cbn. rewrite bool_decide_true by exact Hk. reflexivity.
Qed.

Lemma realize_flash_alias_witness :
  exists alias,
    w_regions sample_composed_world = [alias] /\
    mr_size alias = 1048576 /\ mr_readonly alias = true /\
    mr_alias alias = Some MR_flash_mem /\ mr_alias_offset alias = 0 /\
    w_subregions sample_composed_world =
      [{| sub_parent := MR_system_memory; sub_offset := 0x08000000;
          sub_region := MR_heap 0 |}] /\
    region_read (fun _ k => k) (w_regions sample_composed_world) (MR_heap 0) 4096 =
      Some 4096.
Proof.
  destruct (realize_flash_alias sample_host sample_world sample_capabilities
              sample_cortexm) as (Hr & Hs & Hread).
  - reflexivity.
  - reflexivity.
  - vm_compute. split; [discriminate | reflexivity].
  - eexists. split; [exact Hr |].
    do 4 (split; [reflexivity |]).
    split; [exact Hs |].
    apply (Hread (fun _ k => k) 4096). vm_compute. split; [discriminate | reflexivity].
Defined.


(** ** Populated slots *)

Lemma bind_returns {A B : Type} (m : M A) (k : A -> M B) (w w' : World) (b : B) :
  (m ≫= k) w = Returns b w' ->
  exists a w1, m w = Returns a w1 /\ k a w1 = Returns b w'.
Proof.
  rewrite bind_run. destruct (m w) as [a w1|f w1]; [| discriminate].
  intros Hk. exists a, w1. split; [reflexivity | exact Hk].
Qed.

Lemma respects_returns {R : World -> World -> Prop} {A : Type} (m : M A)
    (w w' : World) (a : A) :
  respects R m -> m w = Returns a w' -> R w w'.
Proof. intros Hm Hrun. specialize (Hm w). rewrite Hrun in Hm. exact Hm. Qed.

#[global] Instance slots_kept_refl : Reflexive slots_kept.
Proof. intros w. repeat split. Qed.

#[global] Instance slots_kept_trans : Transitive slots_kept.
Proof.
  intros w1 w2 w3 (Hg1 & Hu1 & Hp1) (Hg2 & Hu2 & Hp2).
  repeat split; congruence.
Qed.

Lemma rcc_setup_slots_kept (caps : STM32Capabilities) :
  respects slots_kept (rcc_setup caps).
Proof. intros w. unfold rcc_setup. run. repeat split. Qed.

Lemma flash_setup_slots_kept (caps : STM32Capabilities) :
  respects slots_kept (flash_setup caps).
Proof. intros w. unfold flash_setup. run. repeat split. Qed.

(** The power-controller block writes its slot when the flag is set and
    nothing otherwise. *)
Lemma pwr_setup_slots (caps : STM32Capabilities) (w w' : World) :
  pwr_setup caps w = Returns tt w' ->
  pwr (w_mcu w') =
    (if has_pwr caps then Some (Obj_child (w_next_obj w)) else pwr (w_mcu w)) /\
  gpio (w_mcu w') = gpio (w_mcu w) /\
  usart (w_mcu w') = usart (w_mcu w).
Proof.
  unfold pwr_setup. destruct (has_pwr caps); run;
    intros Hrun; injection Hrun as <-; repeat split.
Qed.

(** One guarded call of the GPIO factory. *)
Lemma when_create_gpio_slots (cond : bool) (index : stm32_gpio_index_t)
    (caps : STM32Capabilities) (w w' : World) :
  when cond (create_gpio index caps) w = Returns tt w' ->
  gpio (w_mcu w') =
    (if cond
     then <[Z.to_nat (gpio_index_value index) := Some (Obj_child (w_next_obj w))]>
            (gpio (w_mcu w))
     else gpio (w_mcu w)) /\
  usart (w_mcu w') = usart (w_mcu w) /\
  pwr (w_mcu w') = pwr (w_mcu w).
Proof.
  destruct cond; cbn [when].
  - rewrite create_gpio_runs. cbv zeta. intros Hrun; injection Hrun as <-.
    repeat split.
  - intros Hrun; injection Hrun as <-. repeat split.
Qed.

(** One guarded call of the serial factory, when it returns. *)
Lemma when_create_usart_slots (host : Host) (cond : bool)
    (index : stm32_usart_index_t) (caps : STM32Capabilities) (w w' : World) :
  when cond (create_usart host index caps) w = Returns tt w' ->
  usart (w_mcu w') =
    (if cond
     then <[Z.to_nat (usart_index_value index) := Some (Obj_child (w_next_obj w))]>
            (usart (w_mcu w))
     else usart (w_mcu w)) /\
  gpio (w_mcu w') = gpio (w_mcu w) /\
  pwr (w_mcu w') = pwr (w_mcu w).
Proof.
  destruct cond; cbn [when].
  - unfold create_usart. run.
    destruct (bool_decide (usart_index_value index >= MAX_SERIAL_PORTS host));
      run; [discriminate |].
    destruct (mjoin (serial_hds host !! Z.to_nat (usart_index_value index))); run.
    { intros Hrun; injection Hrun as <-. repeat split. }
    destruct (host_chr_new host (usart_chardev_name index) "null"); run;
      [| discriminate].
    intros Hrun; injection Hrun as <-. repeat split.
  - intros Hrun; injection Hrun as <-. repeat split.
Qed.

(** A guarded write into an empty slot, as one update of the table. *)
Lemma guarded_insert_empty_slot (cond : bool) (n : nat) (dev : DeviceState)
    (slots : list (option DeviceState)) :
  slots !! n = Some None ->
  (if cond then <[n := Some dev]> slots else slots) =
  <[n := if cond then Some dev else None]> slots.
Proof.
  intros Hempty. destruct cond; [reflexivity |].
  symmetry. apply list_insert_id. exact Hempty.
Qed.

(** Decides whether a slot that is [Some dev] under a flag and [None]
    otherwise is populated. *)
Lemma guarded_slot_populated (cond : bool) (dev : DeviceState) :
  is_Some (if cond then Some dev else None) <-> cond = true.
Proof.
  destruct cond; split; try reflexivity.
  - intros _. eexists; reflexivity.
  - intros [? Hsome]. discriminate Hsome.
  - discriminate.
Qed.

(** The GPIO block on empty slots: afterwards the slot of a port holds a
    child exactly when the port's flag is set. *)
Lemma gpio_setup_slots (caps : STM32Capabilities) (w w' : World) :
  gpio (w_mcu w) = replicate STM32_MAX_GPIO None ->
  gpio_setup caps w = Returns tt w' ->
  (forall i, is_Some (gpio_slot (w_mcu w') i) <-> has_gpio caps i = true) /\
  length (gpio (w_mcu w')) = STM32_MAX_GPIO /\
  usart (w_mcu w') = usart (w_mcu w) /\
  pwr (w_mcu w') = pwr (w_mcu w).
Proof.
  intros Hempty Hrun. unfold gpio_setup in Hrun.
  apply bind_returns in Hrun as ([] & wa & Ha & Hrun).
  apply bind_returns in Hrun as ([] & wb & Hb & Hrun).
  apply bind_returns in Hrun as ([] & wc & Hc & Hrun).
  apply bind_returns in Hrun as ([] & wd & Hd & Hrun).
  apply bind_returns in Hrun as ([] & we & He & Hrun).
  apply bind_returns in Hrun as ([] & wf & Hf & Hg).
  apply when_create_gpio_slots in Ha as (Ga & Ua & Pa).
  apply when_create_gpio_slots in Hb as (Gb & Ub & Pb).
  apply when_create_gpio_slots in Hc as (Gc & Uc & Pc).
  apply when_create_gpio_slots in Hd as (Gd & Ud & Pd).
  apply when_create_gpio_slots in He as (Ge & Ue & Pe).
  apply when_create_gpio_slots in Hf as (Gf & Uf & Pf).
  apply when_create_gpio_slots in Hg as (Gg & Ug & Pg).
  rewrite Hempty in Ga.
  rewrite guarded_insert_empty_slot in Ga by reflexivity. cbn in Ga.
  rewrite Ga in Gb.
  rewrite guarded_insert_empty_slot in Gb by reflexivity. cbn in Gb.
  rewrite Gb in Gc.
  rewrite guarded_insert_empty_slot in Gc by reflexivity. cbn in Gc.
  rewrite Gc in Gd.
  rewrite guarded_insert_empty_slot in Gd by reflexivity. cbn in Gd.
  rewrite Gd in Ge.
  rewrite guarded_insert_empty_slot in Ge by reflexivity. cbn in Ge.
  rewrite Ge in Gf.
  rewrite guarded_insert_empty_slot in Gf by reflexivity. cbn in Gf.
  rewrite Gf in Gg.
  rewrite guarded_insert_empty_slot in Gg by reflexivity. cbn in Gg.
  split; [| split; [| split; congruence]].
  - intros i. unfold gpio_slot. rewrite Gg.
    destruct i; apply guarded_slot_populated.
  - rewrite Gg. reflexivity.
Qed.

(** The serial block on empty slots, when it returns. *)
Lemma usart_setup_slots (host : Host) (caps : STM32Capabilities) (w w' : World) :
  usart (w_mcu w) = replicate STM32_MAX_USART None ->
  usart_setup host caps w = Returns tt w' ->
  (forall j, is_Some (usart_slot (w_mcu w') j) <-> has_serial caps j = true) /\
  length (usart (w_mcu w')) = STM32_MAX_USART /\
  gpio (w_mcu w') = gpio (w_mcu w) /\
  pwr (w_mcu w') = pwr (w_mcu w).
Proof.
  intros Hempty Hrun. unfold usart_setup in Hrun.
  apply bind_returns in Hrun as ([] & wa & Ha & Hrun).
  apply bind_returns in Hrun as ([] & wb & Hb & Hrun).
  apply bind_returns in Hrun as ([] & wc & Hc & Hrun).
  apply bind_returns in Hrun as ([] & wd & Hd & Hrun).
  apply bind_returns in Hrun as ([] & we & He & Hf).
  apply when_create_usart_slots in Ha as (Ua & Ga & Pa).
  apply when_create_usart_slots in Hb as (Ub & Gb & Pb).
  apply when_create_usart_slots in Hc as (Uc & Gc & Pc).
  apply when_create_usart_slots in Hd as (Ud & Gd & Pd).
  apply when_create_usart_slots in He as (Ue & Ge & Pe).
  apply when_create_usart_slots in Hf as (Uf & Gf & Pf).
  rewrite Hempty in Ua.
  rewrite guarded_insert_empty_slot in Ua by reflexivity. cbn in Ua.
  rewrite Ua in Ub.
  rewrite guarded_insert_empty_slot in Ub by reflexivity. cbn in Ub.
  rewrite Ub in Uc.
  rewrite guarded_insert_empty_slot in Uc by reflexivity. cbn in Uc.
  rewrite Uc in Ud.
  rewrite guarded_insert_empty_slot in Ud by reflexivity. cbn in Ud.
  rewrite Ud in Ue.
  rewrite guarded_insert_empty_slot in Ue by reflexivity. cbn in Ue.
  rewrite Ue in Uf.
  rewrite guarded_insert_empty_slot in Uf by reflexivity. cbn in Uf.
  split; [| split; [| split; congruence]].
  - intros j. unfold usart_slot. rewrite Uf.
    destruct j; apply guarded_slot_populated.
  - rewrite Uf. reflexivity.
Qed.

Lemma filter_bitband_none (d : list Event) :
  Forall (fun e => is_bitband_init e = false) d ->
  filter (fun e => is_bitband_init e = true) d = [].
Proof.
  induction 1 as [|e d He _ IH]; [reflexivity |].
  rewrite filter_cons, IH. rewrite decide_False by congruence. reflexivity.
Qed.

(** C1: when the composer runs to completion on an instance whose child
    slots are still empty, then, for the descriptor [D] it was given: the
    slot of each GPIO port A to G holds a child exactly when [D] has the
    port's flag, the slot of each serial port 1 to 6 exactly when [D] has
    that port's flag, the power-controller slot exactly when [has_pwr], and
    the bitband constructor was called (once, for the peripheral window)
    exactly when [has_periph_bitband]; the two slot arrays keep their
    seven and six entries, so no further slot exists. *)
Theorem realize_populates_flagged_slots (host : Host) (w w' : World)
    (D : STM32Capabilities) :
  param_capabilities (w_mcu w) = Some D ->
  slots_unpopulated (w_mcu w) ->
  stm32_mcu_realize_callback host w = Returns None w' ->
  (forall i, is_Some (gpio_slot (w_mcu w') i) <-> has_gpio D i = true) /\
  (forall j, is_Some (usart_slot (w_mcu w') j) <-> has_serial D j = true) /\
  (is_Some (pwr (w_mcu w')) <-> has_pwr D = true) /\
  filter (fun e => is_bitband_init e = true) (events_since w w') =
    (if has_periph_bitband D
     then [E_bitband_init (Some (Obj_container (Some Obj_dev) "/stm32"))
             "periph-bitband" 0x40000000]
     else []) /\
  slot_arrays_sized (w_mcu w').
Proof.
  intros Hcaps (Hgpio & Husart & Hpwr) Hrun.
  rewrite realize_unfold in Hrun. cbv zeta in Hrun.
  destruct (host_parent_realize host (parent_obj (w_mcu w))) as [cm' [err|]];
    cbn [fst snd] in Hrun; [discriminate Hrun |].
  rewrite (realize_devices_head host D) in Hrun by exact Hcaps.
  cbv zeta in Hrun.
  match type of Hrun with
  | _ ?w3 = _ =>
      pose proof (respects_returns _ w3 w' None
                    (realize_tail_off_memory_map host D) Hrun)
        as (_ & _ & d & Htrace & Hquiet)
  end.
  apply bind_returns in Hrun as ([] & w4 & Hrcc & Hrun).
  apply bind_returns in Hrun as ([] & w5 & Hflash & Hrun).
  apply bind_returns in Hrun as ([] & w6 & Hpwr_run & Hrun).
  apply bind_returns in Hrun as ([] & w7 & Hgpio_run & Hrun).
  apply bind_returns in Hrun as ([] & w8 & Husart_run & Hret).
  injection Hret as <-.
  apply (respects_returns _ _ _ _ (rcc_setup_slots_kept D)) in Hrcc
    as (G4 & U4 & P4).
  apply (respects_returns _ _ _ _ (flash_setup_slots_kept D)) in Hflash
    as (G5 & U5 & P5).
  apply pwr_setup_slots in Hpwr_run as (P6 & G6 & U6).
  apply gpio_setup_slots in Hgpio_run as (Gslots & Glen & U7 & P7);
    [| rewrite G6, G5, G4; exact Hgpio].
  apply usart_setup_slots in Husart_run as (Uslots & Ulen & G8 & P8);
    [| rewrite U7, U6, U5, U4; exact Husart].
  cbn [w_mcu w_trace set_w_mcu set_w_log set_w_trace set_parent_obj
       set_container set_capabilities gpio usart pwr] in *.
  split; [| split; [| split; [| split]]].
  - intros i. unfold gpio_slot. rewrite G8. apply Gslots.
  - exact Uslots.
  - rewrite P8, P7, P6, P5, P4, Hpwr.
    destruct (has_pwr D); split; try reflexivity.
    + intros _. eexists; reflexivity.
    + intros [? Hsome]. discriminate Hsome.
    + discriminate.
  - erewrite events_since_app
      by (rewrite Htrace, <- !app_assoc; reflexivity).
    cbn [app]. rewrite !filter_cons. cbn [is_bitband_init].
    rewrite !decide_False by discriminate.
    rewrite filter_app, (filter_bitband_none d Hquiet), app_nil_r.
    destruct (has_periph_bitband D); reflexivity.
  - split; [rewrite G8; exact Glen | exact Ulen].
Qed.

Lemma realize_populates_flagged_slots_witness :
  (forall i, is_Some (gpio_slot (w_mcu sample_composed_world) i) <->
             has_gpio sample_capabilities i = true) /\
  (forall j, is_Some (usart_slot (w_mcu sample_composed_world) j) <->
             has_serial sample_capabilities j = true) /\
  (is_Some (pwr (w_mcu sample_composed_world)) <->
   has_pwr sample_capabilities = true) /\
  filter (fun e => is_bitband_init e = true)
    (events_since sample_world sample_composed_world) =
    [E_bitband_init (Some (Obj_container (Some Obj_dev) "/stm32"))
       "periph-bitband" 0x40000000] /\
  slot_arrays_sized (w_mcu sample_composed_world).
Proof.
  apply (realize_populates_flagged_slots sample_host sample_world
           sample_composed_world sample_capabilities).
  - reflexivity.
  - repeat split.
  - vm_compute. reflexivity.
Defined.

(** ** Completion *)

Lemma always_returns_ret {A : Type} (a : A) : always_returns (mret a : M A).
Proof. intros w. exists a, w. reflexivity. Qed.

Lemma always_returns_bind {A B : Type} (m : M A) (k : A -> M B) :
  always_returns m -> (forall a, always_returns (k a)) ->
  always_returns (m ≫= k).
Proof.
  intros Hm Hk w. destruct (Hm w) as (a & w1 & Hrun).
  rewrite bind_run, Hrun. apply Hk.
Qed.

Lemma always_returns_when (cond : bool) (body : M unit) :
  always_returns body -> always_returns (when cond body).
Proof.
  intros Hbody. destruct cond; [exact Hbody | apply always_returns_ret].
Qed.

Lemma create_gpio_returns (index : stm32_gpio_index_t) (caps : STM32Capabilities) :
  always_returns (create_gpio index caps).
Proof. intros w. rewrite create_gpio_runs. eexists _, _. reflexivity. Qed.

Lemma create_usart_returns (host : Host) (index : stm32_usart_index_t)
    (caps : STM32Capabilities) :
  host_backs_all_ports host ->
  always_returns (create_usart host index caps).
Proof.
  intros (Hports & Hchr & _) w.
  rewrite create_usart_runs by (destruct index; cbn; lia). cbv zeta.
  destruct (mjoin (serial_hds host !! Z.to_nat (usart_index_value index))).
  { eexists _, _. reflexivity. }
  destruct (Hchr (usart_chardev_name index) "null") as [chr ->].
  eexists _, _. reflexivity.
Qed.

Lemma rcc_setup_returns (caps : STM32Capabilities) : always_returns (rcc_setup caps).
Proof. intros w. unfold rcc_setup. run. eexists _, _. reflexivity. Qed.

Lemma flash_setup_returns (caps : STM32Capabilities) :
  always_returns (flash_setup caps).
Proof. intros w. unfold flash_setup. run. eexists _, _. reflexivity. Qed.

Lemma pwr_setup_returns (caps : STM32Capabilities) : always_returns (pwr_setup caps).
Proof.
  intros w. unfold pwr_setup. destruct (has_pwr caps); run;
    eexists _, _; reflexivity.
Qed.

Create HintDb completion.

#[global] Hint Resolve create_gpio_returns create_usart_returns
  rcc_setup_returns flash_setup_returns pwr_setup_returns : completion.

Ltac completes_sequence :=
  repeat lazymatch goal with
  | |- always_returns (_ ≫= _) => apply always_returns_bind; [| intros _]
  | |- always_returns (when _ _) => apply always_returns_when
  | |- always_returns (mret _) => apply always_returns_ret
  | |- always_returns _ => solve [auto with completion]
  end.

(** On a host that backs all six serial ports the composer completes for
    every descriptor, that is, for every combination of presence flags. *)
Lemma realize_completes (host : Host) (w : World) (D : STM32Capabilities) :
  host_backs_all_ports host ->
  param_capabilities (w_mcu w) = Some D ->
  exists w', stm32_mcu_realize_callback host w = Returns None w'.
Proof.
  intros Hhost Hcaps. rewrite realize_unfold. cbv zeta.
  destruct Hhost as (Hports & Hchr & Hbase).
  rewrite (Hbase (parent_obj (w_mcu w))).
  rewrite (realize_devices_head host D) by exact Hcaps. cbv zeta.
  assert (Htail : always_returns
            (rcc_setup D;; flash_setup D;; pwr_setup D;; gpio_setup D;;
             usart_setup host D;; mret None : M (option Error))).
  { assert (Hhost : host_backs_all_ports host) by (repeat split; assumption).
    unfold gpio_setup, usart_setup. completes_sequence. }
  match goal with
  | |- exists w', ?m ?w3 = _ => destruct (Htail w3) as (a & w' & Hrun)
  end.
  exists w'. rewrite Hrun. f_equal.
  do 5 (apply bind_returns in Hrun as ([] & ? & _ & Hrun)).
  injection Hrun as <- _. reflexivity.
Qed.

(** ** Scenarios *)

(** Two GPIO ports on a megabyte of flash: slots a and b hold children,
    slots c to g and every serial slot are empty, and the alias covers
    1024 * 1024 bytes. *)
Example scenario_gpio_only :
  let w' := world_before_serial in
  gpio (w_mcu w') =
    [Some (Obj_child 2); Some (Obj_child 3); None; None; None; None; None] /\
  usart (w_mcu w') = [None; None; None; None; None; None] /\
  pwr (w_mcu w') = None /\
  child_names (w_trace w') = ["rcc"; "flash"; "gpio[a]"; "gpio[b]"] /\
  map mr_size (w_regions w') = [1024 * 1024].
Proof. vm_compute. repeat split. Qed.

(** USART1 and USART2 without machine-supplied streams: both children are
    built and bound to "null" streams labelled from index 0 and 1. *)
Example scenario_serial_pair :
  let w0 := World_new (STM32MCUState_new sample_cortexm
                         (Some serial_pair_capabilities) 8000000 32768) in
  exists w',
    stm32_mcu_realize_callback host_with_free_ports w0 = Returns None w' /\
    usart (w_mcu w') =
      [Some (Obj_child 2); Some (Obj_child 3); None; None; None; None] /\
    prop_values (Obj_child 2) "chardev" (w_trace w') =
      [V_chr (Chr_new "serial0" "null")] /\
    prop_values (Obj_child 3) "chardev" (w_trace w') =
      [V_chr (Chr_new "serial1" "null")].
Proof.
  eexists. split; [vm_compute; reflexivity |]. vm_compute. repeat split.
Qed.

(** No character back end to be had: the serial factory aborts after the
    attempt to create the "null" stream. *)
Example scenario_no_chardev :
  exists w',
    create_usart host_without_chardev STM32_USART_1 sample_capabilities
      world_before_serial =
    Aborts (Hw_error ("Can't assign serial port to usart[1]." +:+ newline)) w' /\
    filter (fun e => is_chr_new e = true) (events_since world_before_serial w') =
      [E_chr_new "serial0" "null" None] /\
    usart (w_mcu w') = usart (w_mcu world_before_serial).
Proof.
  eexists. split; [vm_compute; reflexivity |]. vm_compute. repeat split.
Qed.

(** * Further properties of the factories *)

(** ** Names and buffers *)

(** X1: the ten-byte name buffers never truncate: every child name and
    every stream label is the full formatted text, at most nine characters
    long; and no two ports, of either kind, share a child name, nor two
    serial ports a stream label. *)
Theorem child_names_fit_and_differ :
  (forall i,
     gpio_child_name i = "gpio[" +:+ fmt_c (char_a + gpio_index_value i) +:+ "]" /\
     (String.length (gpio_child_name i) <= 9)%nat) /\
  (forall j,
     usart_child_name j = "usart[" +:+ fmt_c (char_1 + usart_index_value j) +:+ "]" /\
     (String.length (usart_child_name j) <= 9)%nat /\
     usart_chardev_name j = "serial" +:+ fmt_d (usart_index_value j) /\
     (String.length (usart_chardev_name j) <= 9)%nat) /\
  (forall i i', gpio_child_name i = gpio_child_name i' -> i = i') /\
  (forall j j', usart_child_name j = usart_child_name j' -> j = j') /\
  (forall j j', usart_chardev_name j = usart_chardev_name j' -> j = j') /\
  (forall i j, gpio_child_name i <> usart_child_name j).
Proof.
  split; [| split; [| split; [| split; [| split]]]].
  - intros i. split; [destruct i; reflexivity | destruct i; vm_compute; lia].
  - intros j. split; [destruct j; reflexivity |].
    split; [destruct j; vm_compute; lia |].
    split; [destruct j; reflexivity | destruct j; vm_compute; lia].
  - intros i i'. destruct i, i'; vm_compute; intros H;
      first [reflexivity | discriminate H].
  - intros j j'. destruct j, j'; vm_compute; intros H;
      first [reflexivity | discriminate H].
  - intros j j'. destruct j, j'; vm_compute; intros H;
      first [reflexivity | discriminate H].
  - intros i j. destruct i, j; vm_compute; discriminate.
Qed.

(** ** One factory call *)

(** The serial factory beyond the host's serial ports: the world it aborts
    in. *)
Lemma create_usart_beyond_runs (host : Host) (index : stm32_usart_index_t)
    (caps : STM32Capabilities) (w : World) :
  usart_index_value index >= MAX_SERIAL_PORTS host ->
  let obj := Obj_child (w_next_obj w) in
  create_usart host index caps w =
  Aborts
    (Hw_error ("Cannot assign usart " +:+ fmt_d (usart_index_value index)
               +:+ ": QEMU supports only " +:+ fmt_d (MAX_SERIAL_PORTS host)
               +:+ " ports" +:+ newline))
    (set_w_next_obj (S (w_next_obj w))
       (set_w_trace
          (w_trace w ++
             [E_object_new (container (w_mcu w)) (usart_child_name index)
                TYPE_STM32_USART obj;
              E_prop_set obj "port-index" (V_int (usart_index_value index));
              E_prop_set obj "capabilities" (V_capabilities caps);
              E_prop_set obj "rcc" (V_device (rcc (w_mcu w)));
              E_prop_set obj "nvic" (V_device (nvic (parent_obj (w_mcu w))))])
          w)).
Proof.
  intros Hge obj. unfold create_usart. run.
  rewrite bool_decide_true by exact Hge. run.
  rewrite <- !app_assoc. reflexivity.
Qed.

Lemma gpio_index_nat_inj (i i' : stm32_gpio_index_t) :
  Z.to_nat (gpio_index_value i) = Z.to_nat (gpio_index_value i') -> i = i'.
Proof. destruct i, i'; intros H; first [reflexivity | discriminate H]. Qed.

Lemma usart_index_nat_inj (j j' : stm32_usart_index_t) :
  Z.to_nat (usart_index_value j) = Z.to_nat (usart_index_value j') -> j = j'.
Proof. destruct j, j'; intros H; first [reflexivity | discriminate H]. Qed.

Lemma gpio_index_in_range (i : stm32_gpio_index_t) :
  (Z.to_nat (gpio_index_value i) < STM32_MAX_GPIO)%nat.
Proof. destruct i; vm_compute; lia. Qed.

Lemma usart_index_in_range (j : stm32_usart_index_t) :
  (Z.to_nat (usart_index_value j) < STM32_MAX_USART)%nat.
Proof. destruct j; vm_compute; lia. Qed.

(** X2: when the GPIO factory returns, on a slot array of the declared
    length, it has stored the node it allocated in the slot of its port,
    whose index is the node's "port-index" property; realizing the node
    was its last call; and every other GPIO slot, every serial slot, the
    three controller references, the container, the memory map and the log
    are as before. *)
Theorem create_gpio_fills_own_slot (i : stm32_gpio_index_t)
    (caps : STM32Capabilities) (w w' : World) :
  length (gpio (w_mcu w)) = STM32_MAX_GPIO ->
  create_gpio i caps w = Returns tt w' ->
  let obj := Obj_child (w_next_obj w) in
  gpio_slot (w_mcu w') i = Some obj /\
  (forall i', i' <> i -> gpio_slot (w_mcu w') i' = gpio_slot (w_mcu w) i') /\
  length (gpio (w_mcu w')) = STM32_MAX_GPIO /\
  prop_values obj "port-index" (events_since w w') =
    [V_int (Z.of_nat (Z.to_nat (gpio_index_value i)))] /\
  (exists before,
     events_since w w' = before ++ [E_realize obj] /\
     realized_nodes before = []) /\
  usart (w_mcu w') = usart (w_mcu w) /\
  (rcc (w_mcu w'), flash (w_mcu w'), pwr (w_mcu w'), container (w_mcu w')) =
    (rcc (w_mcu w), flash (w_mcu w), pwr (w_mcu w), container (w_mcu w)) /\
  (w_regions w', w_subregions w', w_log w') =
    (w_regions w, w_subregions w, w_log w).
Proof.
  intros Hlen Hrun obj. rewrite create_gpio_runs in Hrun. cbv zeta in Hrun.
  fold obj in Hrun. injection Hrun as <-.
  cbn [w_mcu set_w_mcu set_w_next_obj set_w_trace set_gpio gpio usart rcc flash
       pwr container w_regions w_subregions w_log].
  split; [| split; [| split; [| split; [| split; [| repeat split]]]]].
  - unfold gpio_slot. run.
    rewrite list_lookup_insert_eq
      by (rewrite Hlen; apply gpio_index_in_range).
    reflexivity.
  - intros i' Hne. unfold gpio_slot. run.
    rewrite list_lookup_insert_ne; [reflexivity |].
    intros Heq. apply Hne. symmetry. apply gpio_index_nat_inj. exact Heq.
  - rewrite length_insert. exact Hlen.
  - erewrite events_since_app by reflexivity.
    unfold prop_values. cbn.
    rewrite bool_decide_true by (split; reflexivity).
    rewrite !bool_decide_false by (intros [_ E]; discriminate E).
    destruct i; reflexivity.
  - erewrite events_since_app by reflexivity.
    eexists [_; _; _; _]. split; reflexivity.
Qed.

Lemma create_gpio_fills_own_slot_witness :
  gpio_slot
    (w_mcu
       (outcome_world
          (create_gpio STM32_GPIO_PORT_C sample_capabilities
             sample_composed_world)))
    STM32_GPIO_PORT_C =
  Some (Obj_child 7).
Proof.
  destruct (create_gpio_fills_own_slot STM32_GPIO_PORT_C sample_capabilities
              sample_composed_world
              (outcome_world
                 (create_gpio STM32_GPIO_PORT_C sample_capabilities
                    sample_composed_world)))
    as (Hslot & _).
  - reflexivity.
  - vm_compute. reflexivity.
  - exact Hslot.
Defined.

(** X3: when the serial factory returns, on a slot array of the declared
    length, it has stored the node it allocated in the slot of its port,
    whose index is the node's "port-index" property; binding the character
    stream and realizing the node were its last two calls, in this order;
    and every other serial slot, every GPIO slot, the controller
    references, the container, the memory map and the log are as before. *)
Theorem create_usart_fills_own_slot (host : Host) (j : stm32_usart_index_t)
    (caps : STM32Capabilities) (w w' : World) :
  length (usart (w_mcu w)) = STM32_MAX_USART ->
  create_usart host j caps w = Returns tt w' ->
  let obj := Obj_child (w_next_obj w) in
  usart_slot (w_mcu w') j = Some obj /\
  (forall j', j' <> j -> usart_slot (w_mcu w') j' = usart_slot (w_mcu w) j') /\
  length (usart (w_mcu w')) = STM32_MAX_USART /\
  prop_values obj "port-index" (events_since w w') =
    [V_int (Z.of_nat (Z.to_nat (usart_index_value j)))] /\
  (exists chr before,
     events_since w w' =
       before ++ [E_prop_set obj "chardev" (V_chr chr); E_realize obj] /\
     realized_nodes before = []) /\
  gpio (w_mcu w') = gpio (w_mcu w) /\
  (rcc (w_mcu w'), flash (w_mcu w'), pwr (w_mcu w'), container (w_mcu w')) =
    (rcc (w_mcu w), flash (w_mcu w), pwr (w_mcu w), container (w_mcu w)) /\
  (w_regions w', w_subregions w', w_log w') =
    (w_regions w, w_subregions w, w_log w).
Proof.
  intros Hlen Hrun obj.
  destruct (decide (usart_index_value j < MAX_SERIAL_PORTS host)) as [Hlt|Hge].
  2: { rewrite create_usart_beyond_runs in Hrun by lia. discriminate Hrun. }
  rewrite (create_usart_runs host j caps w Hlt) in Hrun. cbv zeta in Hrun.
  fold obj in Hrun.
  assert (Hshape : exists chr calls,
            w' = set_w_mcu
                   (set_usart
                      (<[Z.to_nat (usart_index_value j) := Some obj]>
                         (usart (w_mcu w)))
                      (w_mcu w))
                   (set_w_next_obj (S (w_next_obj w))
                      (set_w_trace
                         (w_trace w ++
                            [E_object_new (container (w_mcu w))
                               (usart_child_name j) TYPE_STM32_USART obj;
                             E_prop_set obj "port-index"
                               (V_int (usart_index_value j));
                             E_prop_set obj "capabilities" (V_capabilities caps);
                             E_prop_set obj "rcc" (V_device (rcc (w_mcu w)));
                             E_prop_set obj "nvic"
                               (V_device (nvic (parent_obj (w_mcu w))))] ++
                            calls ++
                            [E_prop_set obj "chardev" (V_chr chr); E_realize obj])
                         w)) /\
            realized_nodes calls = [] /\
            prop_values obj "port-index" calls = []).
  { destruct (mjoin (serial_hds host !! Z.to_nat (usart_index_value j)))
      as [chr|].
    - injection Hrun as <-. exists chr, []. repeat split.
    - destruct (host_chr_new host (usart_chardev_name j) "null") as [chr|];
        [| discriminate Hrun].
      injection Hrun as <-. eexists chr, [_]. repeat split. }
  destruct Hshape as (chr & calls & -> & Hcalls & Hindex).
  split; [| split; [| split; [| split; [| split; [| repeat split]]]]].
  - unfold usart_slot. run.
    rewrite list_lookup_insert_eq
      by (rewrite Hlen; apply usart_index_in_range).
    reflexivity.
  - intros j' Hne. unfold usart_slot. run.
    rewrite list_lookup_insert_ne; [reflexivity |].
    intros Heq. apply Hne. symmetry. apply usart_index_nat_inj. exact Heq.
  - run. rewrite length_insert. exact Hlen.
  - erewrite events_since_app by (run; reflexivity).
    unfold prop_values in *. rewrite !omap_app, Hindex. cbn.
    rewrite bool_decide_true by (split; reflexivity).
    rewrite !bool_decide_false by (intros [_ E]; discriminate E).
    destruct j; reflexivity.
  - exists chr. eexists.
    erewrite events_since_app by (run; reflexivity).
    split; [rewrite !app_assoc; reflexivity |].
    unfold realized_nodes in *. rewrite !omap_app, Hcalls. reflexivity.
Qed.

Lemma create_usart_fills_own_slot_witness :
  usart_slot
    (w_mcu
       (outcome_world
          (create_usart sample_host STM32_USART_2 sample_capabilities
             sample_composed_world)))
    STM32_USART_2 =
  Some (Obj_child 7).
Proof.
  destruct (create_usart_fills_own_slot sample_host STM32_USART_2
              sample_capabilities sample_composed_world
              (outcome_world
                 (create_usart sample_host STM32_USART_2 sample_capabilities
                    sample_composed_world)))
    as (Hslot & _).
  - reflexivity.
  - vm_compute. reflexivity.
  - exact Hslot.
Defined.

(** X4: when the serial factory aborts, it does so through [hw_error];
    the instance state is exactly as before the call; the node it had
    allocated is neither bound to a character stream nor realized. *)
Theorem create_usart_abort_leaves_instance (host : Host)
    (j : stm32_usart_index_t) (caps : STM32Capabilities) (w w' : World)
    (f : Fatal) :
  create_usart host j caps w = Aborts f w' ->
  let obj := Obj_child (w_next_obj w) in
  (exists msg, f = Hw_error msg) /\
  w_mcu w' = w_mcu w /\
  child_nodes (events_since w w') = [(usart_child_name j, obj)] /\
  realized_nodes (events_since w w') = [] /\
  prop_values obj "chardev" (events_since w w') = [] /\
  (w_regions w', w_subregions w', w_log w') =
    (w_regions w, w_subregions w, w_log w).
Proof.
  intros Hrun obj.
  assert (Hnochr : forall t,
            Forall (fun e => is_prop_set e = false \/
                             exists n v, e = E_prop_set obj n v /\ n <> "chardev") t ->
            prop_values obj "chardev" t = []).
  { induction 1 as [|e t He _ IH]; [reflexivity |].
    unfold prop_values in *. cbn [omap list_omap]. rewrite IH.
    destruct He as [He|(n & v & -> & Hn)].
    - destruct e; try reflexivity. discriminate He.
    - rewrite bool_decide_false by (intros [_ E]; contradiction). reflexivity. }
  destruct (decide (usart_index_value j < MAX_SERIAL_PORTS host)) as [Hlt|Hge].
  - rewrite (create_usart_runs host j caps w Hlt) in Hrun. cbv zeta in Hrun.
    destruct (mjoin (serial_hds host !! Z.to_nat (usart_index_value j)));
      [discriminate Hrun |].
    destruct (host_chr_new host (usart_chardev_name j) "null");
      [discriminate Hrun |].
    injection Hrun as <- <-.
    split; [eexists; reflexivity |]. split; [reflexivity |].
    erewrite events_since_app by (run; reflexivity).
    split; [reflexivity |]. split; [reflexivity |]. split; [| reflexivity].
    apply Hnochr.
    repeat first
      [ apply List.Forall_nil
      | apply List.Forall_cons;
        [ first [ left; reflexivity
                | right; eexists _, _; split; [reflexivity | discriminate] ] | ] ].
  - rewrite create_usart_beyond_runs in Hrun by lia. cbv zeta in Hrun.
    injection Hrun as <- <-.
    split; [eexists; reflexivity |]. split; [reflexivity |].
    erewrite events_since_app by (run; reflexivity).
    split; [reflexivity |]. split; [reflexivity |]. split; [| reflexivity].
    apply Hnochr.
    repeat first
      [ apply List.Forall_nil
      | apply List.Forall_cons;
        [ first [ left; reflexivity
                | right; eexists _, _; split; [reflexivity | discriminate] ] | ] ].
Qed.

Lemma create_usart_abort_leaves_instance_witness :
  exists w',
    create_usart host_without_chardev STM32_USART_1 sample_capabilities
      world_before_serial =
      Aborts (Hw_error ("Can't assign serial port to usart[1]." +:+ newline)) w' /\
    w_mcu w' = w_mcu world_before_serial /\
    realized_nodes (events_since world_before_serial w') = [].
Proof.
  eexists. split; [vm_compute; reflexivity |].
  match goal with
  | |- w_mcu ?w' = _ /\ _ =>
      destruct (create_usart_abort_leaves_instance host_without_chardev
                  STM32_USART_1 sample_capabilities world_before_serial w'
                  (Hw_error ("Can't assign serial port to usart[1]." +:+ newline)))
        as (_ & Hmcu & _ & Hrealized & _)
  end.
  - vm_compute. reflexivity.
  - split; [exact Hmcu | exact Hrealized].
Defined.

(** The serial factory returns only for a port the host can back. *)
Lemma create_usart_returned_backed (host : Host) (j : stm32_usart_index_t)
    (caps : STM32Capabilities) (w w' : World) :
  create_usart host j caps w = Returns tt w' -> port_backed host j.
Proof.
  unfold port_backed. intros Hrun.
  destruct (decide (usart_index_value j < MAX_SERIAL_PORTS host)) as [Hlt|Hge].
  - rewrite (create_usart_runs host j caps w Hlt) in Hrun. cbv zeta in Hrun.
    split; [exact Hlt |].
    destruct (mjoin (serial_hds host !! Z.to_nat (usart_index_value j)))
      as [chr|]; [left; eexists; reflexivity |].
    destruct (host_chr_new host (usart_chardev_name j) "null") as [chr|];
      [right; eexists; reflexivity | discriminate Hrun].
  - rewrite create_usart_beyond_runs in Hrun by lia. discriminate Hrun.
Qed.

(** ** Reset before composition *)

(** X5: on an instance none of whose child references is set, a reset
    returns after the inherited reset step alone: it forwards no reset to
    any device and changes nothing in the instance. *)
Theorem reset_of_uncomposed_instance (w : World) :
  rcc (w_mcu w) = None ->
  flash (w_mcu w) = None ->
  Forall (fun slot => slot = None) (gpio (w_mcu w)) ->
  Forall (fun slot => slot = None) (usart (w_mcu w)) ->
  exists w',
    stm32_mcu_reset_callback w = Returns tt w' /\
    events_since w w' = [E_parent_reset TYPE_STM32_MCU] /\
    w_mcu w' = w_mcu w.
Proof.
  intros Hrcc Hflash Hgpio Husart.
  assert (Hnone : forall slots n,
            Forall (fun slot : option DeviceState => slot = None) slots ->
            omap id (take n slots) = []).
  { intros slots n Hall. revert n.
    induction Hall as [|slot slots -> _ IH]; intros [|n]; try reflexivity.
    cbn. apply IH. }
  unfold stm32_mcu_reset_callback, for_upto.
  set (gpio_loop := for_from STM32_MAX_GPIO _ _).
  set (usart_loop := for_from STM32_MAX_USART _ _).
  assert (Hloops : forall w0,
            w_mcu w0 = w_mcu w -> (gpio_loop;; usart_loop) w0 = Returns tt w0).
  { intros w0 Hmcu. subst gpio_loop usart_loop.
    rewrite bind_run, (for_from_reset_slots gpio).
    rewrite (for_from_reset_slots usart). run.
    rewrite Hmcu, !drop_0, !Hnone by assumption.
    cbn [map]. rewrite !app_nil_r. destruct w0; reflexivity. }
  clearbody gpio_loop usart_loop.
  run. rewrite Hrcc. run. rewrite Hflash. run.
  change (match gpio_loop ?w0 with
          | Returns _ w' => usart_loop w'
          | Aborts f w' => Aborts f w'
          end) with ((gpio_loop;; usart_loop) w0).
  rewrite Hloops by reflexivity.
  eexists. split; [reflexivity |]. split; [| reflexivity].
  apply events_since_app. reflexivity.
Qed.

Lemma reset_of_uncomposed_instance_witness :
  exists w',
    stm32_mcu_reset_callback sample_world = Returns tt w' /\
    w_trace w' = [E_parent_reset TYPE_STM32_MCU].
Proof.
  destruct (reset_of_uncomposed_instance sample_world)
    as (w' & Hrun & Hcalls & _).
  - reflexivity.
  - reflexivity.
  - repeat constructor.
  - repeat constructor.
  - exists w'. split; [exact Hrun |]. exact Hcalls.
Defined.

(** * Further properties of the constructor *)

(** ** The blocks after the flash controller *)

Lemma later_call_core (D : STM32Capabilities) (s s' : STM32MCUState) (e : Event) :
  instance_core s' = instance_core s -> later_call D s e -> later_call D s' e.
Proof.
  unfold instance_core. intros Hcore. injection Hcore as Hp _ _ _ _ Hc Hr _.
  destruct e; cbn; rewrite ?Hp, ?Hc, ?Hr; trivial.
Qed.

Lemma numbered_between_mono (n1 n2 m1 m2 : nat) (e : Event) :
  (m1 <= n1)%nat -> (n2 <= m2)%nat ->
  numbered_between n1 n2 e -> numbered_between m1 m2 e.
Proof.
  unfold numbered_between. intros H1 H2.
  destruct (event_object e) as [[| | m |]|]; trivial. lia.
Qed.

#[global] Instance builds_children_refl (D : STM32Capabilities) :
  Reflexive (builds_children D).
Proof.
  intros w. split; [reflexivity |]. split; [reflexivity |]. split; [lia |].
  exists []. rewrite app_nil_r. repeat split; constructor.
Qed.

#[global] Instance builds_children_trans (D : STM32Capabilities) :
  Transitive (builds_children D).
Proof.
  intros w1 w2 w3 (Hc1 & Hl1 & Hn1 & d1 & Ht1 & Hd1 & Hm1)
                  (Hc2 & Hl2 & Hn2 & d2 & Ht2 & Hd2 & Hm2).
  split; [congruence |]. split; [congruence |]. split; [lia |].
  exists (d1 ++ d2). split; [rewrite Ht2, Ht1, app_assoc; reflexivity |].
  split; apply Forall_app; split.
  - exact Hd1.
  - eapply Forall_impl; [exact Hd2 |]. intros e. apply later_call_core.
    congruence.
  - eapply Forall_impl; [exact Hm1 |]. intros e.
    apply numbered_between_mono; lia.
  - eapply Forall_impl; [exact Hm2 |]. intros e.
    apply numbered_between_mono; lia.
Qed.

(** Closes [builds_children D w w'] once [w'] is an explicit world. *)
Ltac solve_later_call :=
  cbn;
  first
    [ reflexivity
    | exact I
    | repeat split; intros Hname;
      first [reflexivity | discriminate Hname] ].

Ltac solve_builds_children :=
  split; [reflexivity |]; split; [reflexivity |];
  split; [run; lia |];
  run; rewrite <- ?app_assoc; eexists; split; [reflexivity |];
  split;
  repeat first
    [ apply List.Forall_nil
    | apply List.Forall_cons;
      [ first [ solve_later_call
              | unfold numbered_between; cbn [event_object]; run; lia
              | exact I ] | ] ].

Lemma pwr_setup_builds_children (D : STM32Capabilities) :
  respects (builds_children D) (pwr_setup D).
Proof.
  intros w. unfold pwr_setup. destruct (has_pwr D); run.
  - solve_builds_children.
  - reflexivity.
Qed.

Lemma create_gpio_builds_children (D : STM32Capabilities)
    (i : stm32_gpio_index_t) :
  respects (builds_children D) (create_gpio i D).
Proof. intros w. rewrite create_gpio_runs. run. solve_builds_children. Qed.

Lemma create_usart_builds_children (host : Host) (D : STM32Capabilities)
    (j : stm32_usart_index_t) :
  respects (builds_children D) (create_usart host j D).
Proof.
  intros w.
  destruct (decide (usart_index_value j < MAX_SERIAL_PORTS host)) as [Hlt|Hge].
  - rewrite (create_usart_runs host j D w Hlt). cbv zeta.
    destruct (mjoin (serial_hds host !! Z.to_nat (usart_index_value j))); run.
    { solve_builds_children. }
    destruct (host_chr_new host (usart_chardev_name j) "null"); run;
      solve_builds_children.
  - rewrite create_usart_beyond_runs by lia. run. solve_builds_children.
Qed.

Create HintDb children.

#[global] Hint Resolve pwr_setup_builds_children create_gpio_builds_children
  create_usart_builds_children : children.

Ltac children_sequence :=
  repeat lazymatch goal with
  | |- respects _ (_ ≫= _) => apply respects_bind; [exact _ | | intros _]
  | |- respects _ (when _ _) => apply respects_when; [exact _ |]
  | |- respects _ (mret _) => apply respects_ret; exact _
  | |- respects _ _ => solve [auto with children]
  end.

Lemma later_blocks_build_children (host : Host) (D : STM32Capabilities) :
  respects (builds_children D)
    (pwr_setup D;; gpio_setup D;; usart_setup host D;; mret None
     : M (option Error)).
Proof. unfold gpio_setup, usart_setup. children_sequence. Qed.

(** ** Up to the flash controller *)

(** The constructor with a realized base and a descriptor [D] is the
    power, GPIO and serial blocks run from [controllers_world]. *)
Lemma realize_past_check (host : Host) (w : World) (D : STM32Capabilities)
    (cm' : CortexMState) :
  param_capabilities (w_mcu w) = Some D ->
  host_parent_realize host (parent_obj (w_mcu w)) = (cm', None) ->
  stm32_mcu_realize_callback host w =
  (pwr_setup D;; gpio_setup D;; usart_setup host D;; mret None)
    (controllers_world w D cm').
Proof.
  intros Hcaps Hbase. unfold controllers_world, controller_calls.
  rewrite realize_unfold. cbv zeta. rewrite Hbase. cbn [fst snd].
  rewrite (realize_devices_head host D) by exact Hcaps. cbv zeta.
  unfold rcc_setup, flash_setup. run.
  rewrite <- !app_assoc. reflexivity.
Qed.

(** From [controllers_world] on, the run only builds children. *)
Lemma realize_builds_children (host : Host) (w : World)
    (D : STM32Capabilities) (cm' : CortexMState) :
  param_capabilities (w_mcu w) = Some D ->
  host_parent_realize host (parent_obj (w_mcu w)) = (cm', None) ->
  builds_children D (controllers_world w D cm')
    (outcome_world (stm32_mcu_realize_callback host w)).
Proof.
  intros Hcaps Hbase. rewrite (realize_past_check host w D cm' Hcaps Hbase).
  apply later_blocks_build_children.
Qed.

(** The calls of a run past the descriptor check: the controller calls,
    then calls that build children on later nodes. *)
Lemma realize_calls (host : Host) (w : World) (D : STM32Capabilities)
    (cm' : CortexMState) :
  param_capabilities (w_mcu w) = Some D ->
  host_parent_realize host (parent_obj (w_mcu w)) = (cm', None) ->
  let w_end := outcome_world (stm32_mcu_realize_callback host w) in
  exists rest,
    events_since w w_end =
      controller_calls D cm' (hse_freq_hz (w_mcu w)) (lse_freq_hz (w_mcu w))
        (w_next_obj w) ++ rest /\
    Forall (later_call D (w_mcu (controllers_world w D cm'))) rest /\
    Forall (numbered_between (S (S (w_next_obj w))) (w_next_obj w_end)) rest /\
    instance_core (w_mcu w_end) = instance_core (w_mcu (controllers_world w D cm')) /\
    w_log w_end = w_log (controllers_world w D cm').
Proof.
  intros Hcaps Hbase w_end. subst w_end.
  destruct (realize_builds_children host w D cm' Hcaps Hbase)
    as (Hcore & Hlog & Hnext & rest & Htrace & Hcalls & Hnum).
  exists rest. split; [| auto].
  apply events_since_app. rewrite Htrace.
  cbn [controllers_world w_trace]. rewrite app_assoc. reflexivity.
Qed.

(** X6: past the descriptor check, and whether the run completes or a
    serial factory aborts it, the calls begin with the base step, the two
    container look-ups, the bitband constructor if the descriptor has one,
    the clock controller (allocated, given the descriptor, then the
    internal and the external oscillator frequencies, realized) and the
    flash controller; every later call acts on a later node; and the clock
    and flash controller slots hold the first two nodes. *)
Theorem realize_controllers_first (host : Host) (w : World)
    (D : STM32Capabilities) (cm' : CortexMState) :
  param_capabilities (w_mcu w) = Some D ->
  host_parent_realize host (parent_obj (w_mcu w)) = (cm', None) ->
  let w_end := outcome_world (stm32_mcu_realize_callback host w) in
  let n := w_next_obj w in
  (exists rest,
     events_since w w_end =
       controller_calls D cm' (hse_freq_hz (w_mcu w)) (lse_freq_hz (w_mcu w)) n
       ++ rest /\
     Forall (numbered_between (S (S n)) (w_next_obj w_end)) rest) /\
  rcc (w_mcu w_end) = Some (Obj_child n) /\
  flash (w_mcu w_end) = Some (Obj_child (S n)).
Proof.
  intros Hcaps Hbase w_end n.
  destruct (realize_calls host w D cm' Hcaps Hbase)
    as (rest & Hcalls & _ & Hnum & Hcore & _).
  fold w_end in Hcalls, Hnum, Hcore.
  split; [exists rest; split; assumption |].
  unfold instance_core in Hcore. injection Hcore as _ _ _ _ _ _ Hrcc Hflash.
  split; assumption.
Qed.

Lemma realize_controllers_first_witness :
  let w_end :=
    outcome_world (stm32_mcu_realize_callback host_without_serial sample_world) in
  child_names (events_since sample_world w_end) =
    ["rcc"; "flash"; "pwr"; "gpio[a]"; "gpio[b]"; "usart[1]"] /\
  rcc (w_mcu w_end) = Some (Obj_child 0) /\
  flash (w_mcu w_end) = Some (Obj_child 1).
Proof.
  split; [vm_compute; reflexivity |].
  apply (realize_controllers_first host_without_serial sample_world
           sample_capabilities sample_cortexm); reflexivity.
Defined.

(** X7: past the descriptor check, whatever the outcome, every reference
    the run injects is one of this instance: each "capabilities" property
    carries the bound descriptor, each "rcc" property the clock controller
    node built by this run (never a null reference), and each "nvic"
    property the interrupt controller the base step left behind. *)
Theorem realize_injects_own_references (host : Host) (w : World)
    (D : STM32Capabilities) (cm' : CortexMState) :
  param_capabilities (w_mcu w) = Some D ->
  host_parent_realize host (parent_obj (w_mcu w)) = (cm', None) ->
  let w_end := outcome_world (stm32_mcu_realize_callback host w) in
  Forall
    (fun e =>
       match e with
       | E_prop_set _ name v =>
           (name = "capabilities" -> v = V_capabilities D) /\
           (name = "rcc" -> v = V_device (Some (Obj_child (w_next_obj w)))) /\
           (name = "nvic" -> v = V_device (nvic cm'))
       | _ => True
       end)
    (events_since w w_end).
Proof.
  intros Hcaps Hbase w_end.
  destruct (realize_calls host w D cm' Hcaps Hbase)
    as (rest & Hcalls & Hlater & _).
  fold w_end in Hcalls. rewrite Hcalls. apply Forall_app. split.
  - unfold controller_calls. destruct (has_periph_bitband D); cbn [app];
      repeat first
        [ apply List.Forall_nil
        | apply List.Forall_cons;
          [ first [ exact I
                  | repeat split; intros Hname;
                    first [reflexivity | discriminate Hname] ] | ] ].
  - eapply Forall_impl; [exact Hlater |].
    intros e He. destruct e; try exact I. exact He.
Qed.

Lemma realize_injects_own_references_witness :
  Forall
    (fun e =>
       match e with
       | E_prop_set _ name v =>
           (name = "capabilities" -> v = V_capabilities sample_capabilities) /\
           (name = "rcc" -> v = V_device (Some (Obj_child 0))) /\
           (name = "nvic" -> v = V_device (Some (Obj_base 0)))
       | _ => True
       end)
    (events_since sample_world sample_composed_world).
Proof.
  exact (realize_injects_own_references sample_host sample_world
           sample_capabilities sample_cortexm eq_refl eq_refl).
Defined.

(** X8: past the descriptor check, whatever the outcome, the instance is
    bound to its "/stm32" container and to the descriptor it was given;
    every node the run allocates is allocated under that container; and the
    run leaves its three configuration inputs untouched. *)
Theorem realize_binds_container_and_descriptor (host : Host) (w : World)
    (D : STM32Capabilities) (cm' : CortexMState) :
  param_capabilities (w_mcu w) = Some D ->
  host_parent_realize host (parent_obj (w_mcu w)) = (cm', None) ->
  let w_end := outcome_world (stm32_mcu_realize_callback host w) in
  let stm32 := Obj_container (Some Obj_dev) "/stm32" in
  container (w_mcu w_end) = Some stm32 /\
  capabilities (w_mcu w_end) = Some D /\
  Forall (fun a => a.1.1 = Some stm32) (child_allocations (events_since w w_end)) /\
  (param_capabilities (w_mcu w_end), hse_freq_hz (w_mcu w_end),
   lse_freq_hz (w_mcu w_end)) =
    (param_capabilities (w_mcu w), hse_freq_hz (w_mcu w), lse_freq_hz (w_mcu w)).
Proof.
  intros Hcaps Hbase w_end stm32.
  destruct (realize_calls host w D cm' Hcaps Hbase)
    as (rest & Hcalls & Hlater & _ & Hcore & _).
  fold w_end in Hcalls, Hcore.
  unfold instance_core in Hcore.
  injection Hcore as _ Hparam Hbound Hhse Hlse Hcont _ _.
  split; [exact Hcont |]. split; [exact Hbound |].
  split; [| rewrite Hparam, Hhse, Hlse; reflexivity].
  rewrite Hcalls, child_allocations_app. apply Forall_app. split.
  - unfold controller_calls. destruct (has_periph_bitband D);
      repeat constructor.
  - clear Hcalls. induction Hlater as [|e rest He _ IH]; [constructor |].
    destruct e; try exact IH.
    cbn in He |- *. constructor; [exact He | exact IH].
Qed.

Lemma realize_binds_container_and_descriptor_witness :
  container (w_mcu sample_composed_world) =
    Some (Obj_container (Some Obj_dev) "/stm32") /\
  capabilities (w_mcu sample_composed_world) = Some sample_capabilities.
Proof.
  destruct (realize_binds_container_and_descriptor sample_host sample_world
              sample_capabilities sample_cortexm eq_refl eq_refl)
    as (Hcont & Hbound & _).
  split; [exact Hcont | exact Hbound].
Defined.

(** X9: past the descriptor check, whatever the outcome, the run adds two
    lines to the diagnostic log and no more: the function name and the
    family label, the label of a family outside the five known ones being
    "unknown". *)
Theorem realize_logs_function_and_family (host : Host) (w : World)
    (D : STM32Capabilities) (cm' : CortexMState) :
  param_capabilities (w_mcu w) = Some D ->
  host_parent_realize host (parent_obj (w_mcu w)) = (cm', None) ->
  let w_end := outcome_world (stm32_mcu_realize_callback host w) in
  let label :=
    match family D with
    | STM32_FAMILY_F1 => "F1" | STM32_FAMILY_F2 => "F2"
    | STM32_FAMILY_F3 => "F3" | STM32_FAMILY_F4 => "F4"
    | STM32_FAMILY_L1 => "L1" | STM32_FAMILY_other _ => "unknown"
    end in
  w_log w_end =
    w_log w ++
      [Log_function_name "stm32_mcu_realize_callback";
       Log_trace ("STM32 Family: " +:+ label +:+ newline)].
Proof.
  intros Hcaps Hbase w_end label.
  destruct (realize_calls host w D cm' Hcaps Hbase) as (rest & _ & _ & _ & _ & Hlog).
  fold w_end in Hlog. rewrite Hlog. reflexivity.
Qed.

Lemma realize_logs_function_and_family_witness :
  w_log sample_composed_world =
    [Log_function_name "stm32_mcu_realize_callback";
     Log_trace ("STM32 Family: F4" +:+ newline)].
Proof.
  apply (realize_logs_function_and_family sample_host sample_world
           sample_capabilities sample_cortexm eq_refl eq_refl).
Defined.

(** ** Properties of one node over a whole run *)











(** * Port tables *)

(** ** Numbering *)

Lemma assigned_nodes_objects {I : Type} (flag : I -> bool) (name : I -> string)
    (ports : list I) (n : nat) :
  map snd (assigned_nodes flag name ports n) =
  map Obj_child (seq n (length (List.filter flag ports))).
Proof.
  revert n. induction ports as [|i ports IH]; intros n; [reflexivity |].
  cbn. destruct (flag i); cbn; [f_equal |]; apply IH.
Qed.

Lemma assigned_nodes_names {I : Type} (flag : I -> bool) (name : I -> string)
    (ports : list I) (n : nat) :
  map fst (assigned_nodes flag name ports n) = map name (List.filter flag ports).
Proof.
  revert n. induction ports as [|i ports IH]; intros n; [reflexivity |].
  cbn. destruct (flag i); cbn; [f_equal |]; apply IH.
Qed.

Lemma assigned_slots_objects {I : Type} (flag : I -> bool) (name : I -> string)
    (ports : list I) (n : nat) :
  omap id (assigned_slots flag ports n) =
  map snd (assigned_nodes flag name ports n).
Proof.
  revert n. induction ports as [|i ports IH]; intros n; [reflexivity |].
  cbn. destruct (flag i); cbn; [f_equal |]; apply IH.
Qed.

Lemma length_assigned_slots {I : Type} (flag : I -> bool) (ports : list I)
    (n : nat) :
  length (assigned_slots flag ports n) = length ports.
Proof.
  revert n. induction ports as [|i ports IH]; intros n; [reflexivity |].
  cbn. destruct (flag i); cbn; f_equal; apply IH.
Qed.

Lemma lookup_node_absent (name : string) (nodes : list (string * Object)) :
  name ∉ map fst nodes -> lookup_node name nodes = None.
Proof.
  induction nodes as [|[n obj] nodes IH]; intros Hnotin; [reflexivity |].
  cbn in Hnotin |- *. apply not_elem_of_cons in Hnotin as [Hne Hnotin].
  rewrite decide_False by congruence. apply IH. exact Hnotin.
Qed.

Lemma lookup_node_app (name : string) (nodes1 nodes2 : list (string * Object)) :
  lookup_node name (nodes1 ++ nodes2) =
  match lookup_node name nodes1 with
  | Some obj => Some obj
  | None => lookup_node name nodes2
  end.
Proof.
  induction nodes1 as [|[n obj] nodes1 IH]; [reflexivity |].
  cbn. destruct (decide (n = name)); [reflexivity | exact IH].
Qed.

Lemma assigned_names_in_table {I : Type} (flag : I -> bool) (name : I -> string)
    (ports : list I) (n : nat) (x : string) :
  x ∈ map fst (assigned_nodes flag name ports n) -> x ∈ map name ports.
Proof.
  rewrite assigned_nodes_names. intros Hin.
  apply list_elem_of_In, in_map_iff in Hin as (i & <- & Hin).
  apply List.filter_In in Hin as [Hin _].
  apply list_elem_of_In, in_map. exact Hin.
Qed.

(** The slot of a port holds the node registered under the port's name,
    and is empty when no node is. *)
Lemma assigned_slot_is_named_node {I : Type} (flag : I -> bool)
    (name : I -> string) (ports : list I) (n p : nat) (i : I) :
  NoDup (map name ports) ->
  ports !! p = Some i ->
  mjoin (assigned_slots flag ports n !! p) =
  lookup_node (name i) (assigned_nodes flag name ports n).
Proof.
  revert n p. induction ports as [|i0 ports IH]; intros n p Hnodup Hp;
    [discriminate Hp |].
  cbn [map] in Hnodup. apply NoDup_cons in Hnodup as [Hfresh Hnodup].
  destruct p as [|p]; cbn in Hp.
  - injection Hp as ->. cbn. destruct (flag i).
    + cbn. rewrite decide_True by reflexivity. reflexivity.
    + cbn. symmetry. apply lookup_node_absent. intros Hin. apply Hfresh.
      eapply assigned_names_in_table. exact Hin.
  - assert (Hne : name i0 <> name i).
    { intros Heq. apply Hfresh. rewrite Heq.
      apply list_elem_of_In, in_map, list_elem_of_In.
      eapply list_elem_of_lookup_2. exact Hp. }
    cbn. destruct (flag i0); cbn.
    + rewrite decide_False by exact Hne. apply IH; assumption.
    + apply IH; assumption.
Qed.

(** ** A table walk *)

Lemma child_nodes_app (t1 t2 : list Event) :
  child_nodes (t1 ++ t2) = child_nodes t1 ++ child_nodes t2.
Proof. unfold child_nodes. apply omap_app. Qed.

Lemma realized_nodes_app (t1 t2 : list Event) :
  realized_nodes (t1 ++ t2) = realized_nodes t1 ++ realized_nodes t2.
Proof. unfold realized_nodes. apply omap_app. Qed.

Section PortTable.

Context {I : Type} (flag : I -> bool) (name : I -> string) (type : TypeName)
  (index : I -> nat) (sel other : STM32MCUState -> list (option DeviceState))
  (factory : I -> M unit).

(** What one factory call does when it returns: it takes the next node
    number, registers the node under the port's name and realizes it,
    stores it in the port's slot, and leaves the other slot array, the
    power-controller slot and the container alone. *)
Hypothesis factory_effect : forall i w w',
  factory i w = Returns tt w' ->
  w_next_obj w' = S (w_next_obj w) /\
  sel (w_mcu w') = <[index i := Some (Obj_child (w_next_obj w))]> (sel (w_mcu w)) /\
  other (w_mcu w') = other (w_mcu w) /\
  pwr (w_mcu w') = pwr (w_mcu w) /\
  container (w_mcu w') = container (w_mcu w) /\
  exists d,
    w_trace w' = w_trace w ++ d /\
    child_nodes d = [(name i, Obj_child (w_next_obj w))] /\
    realized_nodes d = [Obj_child (w_next_obj w)] /\
    child_allocations d = [(container (w_mcu w), name i, type)].

(** The calls of a table walk that returns. *)
Lemma ports_setup_calls (ports : list I) (w w' : World) :
  ports_setup flag factory ports w = Returns tt w' ->
  w_next_obj w' = (w_next_obj w + length (List.filter flag ports))%nat /\
  other (w_mcu w') = other (w_mcu w) /\
  pwr (w_mcu w') = pwr (w_mcu w) /\
  container (w_mcu w') = container (w_mcu w) /\
  exists d,
    w_trace w' = w_trace w ++ d /\
    child_nodes d = assigned_nodes flag name ports (w_next_obj w) /\
    realized_nodes d = map snd (assigned_nodes flag name ports (w_next_obj w)) /\
    child_allocations d =
      map (fun i => (container (w_mcu w), name i, type)) (List.filter flag ports).
Proof.
  revert w. induction ports as [|i ports IH]; intros w Hrun.
  - cbn in Hrun. injection Hrun as <-. cbn. rewrite Nat.add_0_r.
    repeat split. exists []. rewrite app_nil_r. repeat split.
  - cbn [ports_setup] in Hrun.
    apply bind_returns in Hrun as ([] & w1 & Hstep & Hrun).
    apply IH in Hrun as (Hn & Ho & Hp & Hc & d2 & Ht2 & Hnodes2 & Hreal2 & Halloc2).
    cbn [List.filter assigned_nodes]. destruct (flag i); cbn [when] in Hstep.
    + apply factory_effect in Hstep
        as (Hn1 & _ & Ho1 & Hp1 & Hc1 & d1 & Ht1 & Hnodes1 & Hreal1 & Halloc1).
      rewrite Hn1 in *. rewrite Hc1 in *.
      split; [cbn [length]; lia |]. split; [congruence |]. split; [congruence |].
      split; [congruence |].
      exists (d1 ++ d2). split; [rewrite Ht2, Ht1, app_assoc; reflexivity |].
      rewrite child_nodes_app, realized_nodes_app, child_allocations_app.
      rewrite Hnodes1, Hnodes2, Hreal1, Hreal2, Halloc1, Halloc2.
      repeat split.
    + injection Hstep as <-.
      split; [exact Hn |]. split; [exact Ho |]. split; [exact Hp |].
      split; [exact Hc |].
      exists d2. repeat split; assumption.
Qed.

(** The slots of a table walk that returns, when the walk starts on empty
    slots and the table lists the slots in array order. *)
Lemma ports_setup_slots (ports : list I) (w w' : World)
    (done_slots : list (option DeviceState)) :
  ports_setup flag factory ports w = Returns tt w' ->
  sel (w_mcu w) = done_slots ++ replicate (length ports) None ->
  map index ports = seq (length done_slots) (length ports) ->
  sel (w_mcu w') = done_slots ++ assigned_slots flag ports (w_next_obj w).
Proof.
  revert w done_slots. induction ports as [|i ports IH];
    intros w done_slots Hrun Hsel Hindex.
  - cbn in Hrun. injection Hrun as <-. exact Hsel.
  - cbn [ports_setup] in Hrun.
    apply bind_returns in Hrun as ([] & w1 & Hstep & Hrun).
    cbn [map length seq] in Hindex. injection Hindex as Hi Hindex.
    cbn [replicate length] in Hsel.
    cbn [assigned_slots]. destruct (flag i); cbn [when] in Hstep.
    + apply factory_effect in Hstep as (Hn1 & Hsel1 & _).
      rewrite Hsel, Hi in Hsel1.
      rewrite insert_app_r_alt in Hsel1 by reflexivity.
      rewrite Nat.sub_diag in Hsel1. cbn in Hsel1.
      rewrite (IH w1 (done_slots ++ [Some (Obj_child (w_next_obj w))]) Hrun).
      * rewrite Hn1, <- app_assoc. reflexivity.
      * rewrite Hsel1, <- app_assoc. reflexivity.
      * rewrite length_app. cbn [length]. rewrite Nat.add_1_r. exact Hindex.
    + injection Hstep as <-.
      rewrite (IH w (done_slots ++ [None]) Hrun).
      * rewrite <- app_assoc. reflexivity.
      * rewrite Hsel, <- app_assoc. reflexivity.
      * rewrite length_app. cbn [length]. rewrite Nat.add_1_r. exact Hindex.
Qed.

End PortTable.

(** ** The two tables of the constructor *)

Lemma bind_ret_tt (m : M unit) (w : World) : (m;; mret tt) w = m w.
Proof. rewrite bind_run. destruct (m w) as [[] w1|f w1]; reflexivity. Qed.

(** Steps through one statement of a sequence on both sides of an
    equation between runs. *)
Ltac same_first_step :=
  rewrite (bind_run (when _ _)); symmetry; rewrite (bind_run (when _ _));
  symmetry;
  match goal with
  | |- context [when ?c ?m ?w] => destruct (when c m w) as [[] ?|]
  end; [| reflexivity].

(** The GPIO part of the constructor is the walk of the GPIO table. *)
Lemma gpio_setup_is_table (D : STM32Capabilities) (w : World) :
  gpio_setup D w =
  ports_setup (has_gpio D) (fun i => create_gpio i D) all_gpio_ports w.
Proof.
  unfold gpio_setup, all_gpio_ports. cbn [ports_setup has_gpio].
  do 6 same_first_step. rewrite bind_ret_tt. reflexivity.
Qed.

(** The serial part of the constructor is the walk of the serial table. *)
Lemma usart_setup_is_table (host : Host) (D : STM32Capabilities) (w : World) :
  usart_setup host D w =
  ports_setup (has_serial D) (fun j => create_usart host j D) all_usart_ports w.
Proof.
  unfold usart_setup, all_usart_ports. cbn [ports_setup has_serial].
  do 5 same_first_step. rewrite bind_ret_tt. reflexivity.
Qed.

Lemma create_gpio_effect (D : STM32Capabilities) (i : stm32_gpio_index_t)
    (w w' : World) :
  create_gpio i D w = Returns tt w' ->
  w_next_obj w' = S (w_next_obj w) /\
  gpio (w_mcu w') =
    <[Z.to_nat (gpio_index_value i) := Some (Obj_child (w_next_obj w))]>
      (gpio (w_mcu w)) /\
  usart (w_mcu w') = usart (w_mcu w) /\
  pwr (w_mcu w') = pwr (w_mcu w) /\
  container (w_mcu w') = container (w_mcu w) /\
  exists d,
    w_trace w' = w_trace w ++ d /\
    child_nodes d = [(gpio_child_name i, Obj_child (w_next_obj w))] /\
    realized_nodes d = [Obj_child (w_next_obj w)] /\
    child_allocations d = [(container (w_mcu w), gpio_child_name i, TYPE_STM32_GPIO)].
Proof.
  rewrite create_gpio_runs. cbv zeta. intros Hrun. injection Hrun as <-.
  do 5 (split; [reflexivity |]).
  eexists. split; [reflexivity |]. repeat split.
Qed.

Lemma create_usart_effect (host : Host) (D : STM32Capabilities)
    (j : stm32_usart_index_t) (w w' : World) :
  create_usart host j D w = Returns tt w' ->
  w_next_obj w' = S (w_next_obj w) /\
  usart (w_mcu w') =
    <[Z.to_nat (usart_index_value j) := Some (Obj_child (w_next_obj w))]>
      (usart (w_mcu w)) /\
  gpio (w_mcu w') = gpio (w_mcu w) /\
  pwr (w_mcu w') = pwr (w_mcu w) /\
  container (w_mcu w') = container (w_mcu w) /\
  exists d,
    w_trace w' = w_trace w ++ d /\
    child_nodes d = [(usart_child_name j, Obj_child (w_next_obj w))] /\
    realized_nodes d = [Obj_child (w_next_obj w)] /\
    child_allocations d =
      [(container (w_mcu w), usart_child_name j, TYPE_STM32_USART)].
Proof.
  intros Hrun.
  destruct (decide (usart_index_value j < MAX_SERIAL_PORTS host)) as [Hlt|Hge].
  2: { rewrite create_usart_beyond_runs in Hrun by lia. discriminate Hrun. }
  rewrite (create_usart_runs host j D w Hlt) in Hrun. cbv zeta in Hrun.
  destruct (mjoin (serial_hds host !! Z.to_nat (usart_index_value j))).
  { injection Hrun as <-. do 5 (split; [reflexivity |]).
    eexists. split; [reflexivity |]. repeat split. }
  destruct (host_chr_new host (usart_chardev_name j) "null");
    [| discriminate Hrun].
  injection Hrun as <-. do 5 (split; [reflexivity |]).
  eexists. split; [reflexivity |]. repeat split.
Qed.

(** ** A composition that completes *)

Lemma child_allocations_nodes (t : list Event) :
  map (fun a => a.1.2) (child_allocations t) = map fst (child_nodes t).
Proof.
  induction t as [|e t IH]; [reflexivity |].
  destruct e; cbn; try exact IH. f_equal. exact IH.
Qed.

(** The run of the constructor that returns, block by block: the result,
    the node counter, the nodes registered and realized, the allocations
    and the slots. *)
Lemma realize_completed (host : Host) (w w' : World) (D : STM32Capabilities)
    (cm' : CortexMState) (r : option Error) :
  param_capabilities (w_mcu w) = Some D ->
  host_parent_realize host (parent_obj (w_mcu w)) = (cm', None) ->
  stm32_mcu_realize_callback host w = Returns r w' ->
  let n := w_next_obj w in
  let p := if has_pwr D then 1%nat else 0%nat in
  let g := length (List.filter (has_gpio D) all_gpio_ports) in
  r = None /\
  w_next_obj w' = (n + length (composed_children D))%nat /\
  child_nodes (events_since w w') = composed_nodes D n /\
  realized_nodes (events_since w w') = map snd (composed_nodes D n) /\
  child_allocations (events_since w w') =
    map (fun c => (Some (Obj_container (Some Obj_dev) "/stm32"), c.1, c.2))
      (composed_children D) /\
  rcc (w_mcu w') = Some (Obj_child n) /\
  flash (w_mcu w') = Some (Obj_child (S n)) /\
  pwr (w_mcu w') =
    (if has_pwr D then Some (Obj_child (S (S n))) else pwr (w_mcu w)) /\
  (gpio (w_mcu w) = replicate STM32_MAX_GPIO None ->
   gpio (w_mcu w') = assigned_slots (has_gpio D) all_gpio_ports (2 + n + p)) /\
  (usart (w_mcu w) = replicate STM32_MAX_USART None ->
   usart (w_mcu w') =
     assigned_slots (has_serial D) all_usart_ports (2 + n + p + g)).
Proof.
  intros Hcaps Hbase Hrun n p g.
  rewrite (realize_past_check host w D cm' Hcaps Hbase) in Hrun.
  pose proof (respects_returns _ _ _ _ (later_blocks_build_children host D) Hrun)
    as (Hcore & _).
  apply bind_returns in Hrun as ([] & w1 & Hpwr & Hrun).
  apply bind_returns in Hrun as ([] & w2 & Hgpio & Hrun).
  apply bind_returns in Hrun as ([] & w3 & Husart & Hrun).
  injection Hrun as <- <-.
  rewrite gpio_setup_is_table in Hgpio. rewrite usart_setup_is_table in Husart.
  pose proof (ports_setup_calls _ gpio_child_name TYPE_STM32_GPIO _ gpio usart _
                (create_gpio_effect D) _ _ _ Hgpio)
    as (Hn2 & Hu2 & Hp2 & Hc2 & d2 & Ht2 & Hnodes2 & Hreal2 & Halloc2).
  pose proof (ports_setup_slots _ gpio_child_name TYPE_STM32_GPIO _ gpio usart _
                (create_gpio_effect D) _ _ _ [] Hgpio) as Hslots2.
  pose proof (ports_setup_calls _ usart_child_name TYPE_STM32_USART _ usart gpio _
                (create_usart_effect host D) _ _ _ Husart)
    as (Hn3 & Hg3 & Hp3 & Hc3 & d3 & Ht3 & Hnodes3 & Hreal3 & Halloc3).
  pose proof (ports_setup_slots _ usart_child_name TYPE_STM32_USART _ usart gpio _
                (create_usart_effect host D) _ _ _ [] Husart) as Hslots3.
  assert (Hw1 : w_next_obj w1 = (2 + n + p)%nat /\
                container (w_mcu w1) = Some (Obj_container (Some Obj_dev) "/stm32") /\
                rcc (w_mcu w1) = Some (Obj_child n) /\
                flash (w_mcu w1) = Some (Obj_child (S n)) /\
                gpio (w_mcu w1) = gpio (w_mcu w) /\
                usart (w_mcu w1) = usart (w_mcu w) /\
                pwr (w_mcu w1) =
                  (if has_pwr D then Some (Obj_child (S (S n))) else pwr (w_mcu w)) /\
                exists d1,
                  w_trace w1 = w_trace w ++ d1 /\
                  child_nodes d1 =
                    [("rcc", Obj_child n); ("flash", Obj_child (S n))] ++
                    (if has_pwr D then [("pwr", Obj_child (S (S n)))] else []) /\
                  realized_nodes d1 =
                    [Obj_child n; Obj_child (S n)] ++
                    (if has_pwr D then [Obj_child (S (S n))] else []) /\
                  child_allocations d1 =
                    map (fun c => (Some (Obj_container (Some Obj_dev) "/stm32"),
                                   c.1, c.2))
                      ([("rcc", TYPE_STM32_RCC); ("flash", TYPE_STM32_FLASH)] ++
                       (if has_pwr D then [("pwr", TYPE_STM32_PWR)] else []))).
  { subst n p. revert Hpwr. unfold pwr_setup, controllers_world, controller_calls.
    destruct (has_pwr D), (has_periph_bitband D); run; intros Hpwr;
      injection Hpwr as <-; run;
      (split; [lia |]); do 6 (split; [reflexivity |]);
      rewrite <- ?app_assoc; eexists; (split; [reflexivity |]);
      repeat split. }
  destruct Hw1 as (Hn1 & Hc1 & Hrcc1 & Hflash1 & Hg1 & Hu1 & Hp1 & d1 & Ht1 &
                   Hnodes1 & Hreal1 & Halloc1).
  assert (Hsince : events_since w w3 = d1 ++ d2 ++ d3).
  { apply events_since_app. rewrite Ht3, Ht2, Ht1, <- !app_assoc. reflexivity. }
  rewrite Hsince, !child_nodes_app, !realized_nodes_app, !child_allocations_app.
  rewrite Hnodes1, Hnodes2, Hnodes3, Hreal1, Hreal2, Hreal3.
  rewrite Halloc1, Halloc2, Halloc3, Hc2, Hc1, Hn2, Hn1.
  split; [reflexivity |].
  split.
  { rewrite Hn3, Hn2, Hn1. unfold composed_children.
    rewrite !length_app, !length_map. subst p g.
    destruct (has_pwr D); cbn [length]; lia. }
  split.
  { unfold composed_nodes. fold p. rewrite <- !app_assoc. reflexivity. }
  split.
  { unfold composed_nodes. fold p. rewrite !map_app.
    destruct (has_pwr D); reflexivity. }
  split.
  { unfold composed_children. rewrite !map_app, !map_map, <- !app_assoc.
    reflexivity. }
  injection Hcore as _ _ _ _ _ _ Hrcc Hflash.
  split; [exact Hrcc |]. split; [exact Hflash |].
  split; [rewrite Hp3, Hp2; exact Hp1 |].
  split.
  - intros Hempty. rewrite Hg3, <- Hn1. apply Hslots2; [| reflexivity].
    rewrite Hg1. exact Hempty.
  - intros Hempty. fold g in Hn2. rewrite Hn1 in Hn2. rewrite <- Hn2.
    apply Hslots3; [| reflexivity].
    rewrite Hu2, Hu1. exact Hempty.
Qed.

(** A constructor that returns without an error has a base step that
    succeeded. *)
Lemma realize_returned_none (host : Host) (w w' : World) :
  stm32_mcu_realize_callback host w = Returns None w' ->
  exists cm', host_parent_realize host (parent_obj (w_mcu w)) = (cm', None).
Proof.
  rewrite realize_unfold. cbv zeta.
  destruct (host_parent_realize host (parent_obj (w_mcu w))) as [cm' [err|]];
    cbn [fst snd]; [discriminate |].
  intros _. exists cm'. reflexivity.
Qed.

Lemma composed_nodes_names (D : STM32Capabilities) (n : nat) :
  map fst (composed_nodes D n) = map fst (composed_children D).
Proof.
  unfold composed_nodes, composed_children. cbv zeta.
  rewrite !map_app, !assigned_nodes_names, !map_map.
  destruct (has_pwr D); reflexivity.
Qed.

Lemma composed_nodes_objects (D : STM32Capabilities) (n : nat) :
  map snd (composed_nodes D n) =
  map Obj_child (seq n (length (composed_children D))).
Proof.
  unfold composed_nodes, composed_children. cbv zeta.
  rewrite !map_app, !assigned_nodes_objects, !length_app, !length_map.
  rewrite !seq_app, !map_app.
  destruct (has_pwr D); cbn [length map seq app snd];
    repeat first [reflexivity | lia | f_equal].
Qed.

Lemma map_filter_sublist {A B : Type} (g : A -> B) (f : A -> bool) (l : list A) :
  map g (List.filter f l) `sublist_of` map g l.
Proof.
  induction l as [|x l IH]; cbn; [constructor |].
  destruct (f x); [apply sublist_skip | apply sublist_cons]; exact IH.
Qed.

(** The children of any descriptor bear different names. *)
Lemma composed_names_distinct (D : STM32Capabilities) :
  NoDup (map fst (composed_children D)).
Proof.
  apply (sublist_NoDup _
           (["rcc"; "flash"; "pwr"] ++ map gpio_child_name all_gpio_ports ++
            map usart_child_name all_usart_ports)).
  - apply (bool_decide_unpack _). vm_compute. exact I.
  - unfold composed_children. rewrite !map_app, !map_map. cbn [fst].
    change ["rcc"; "flash"; "pwr"] with (["rcc"; "flash"] ++ ["pwr"]).
    rewrite <- app_assoc.
    apply sublist_app; [reflexivity |].
    apply sublist_app; [destruct (has_pwr D); [reflexivity | apply sublist_nil_l] |].
    apply sublist_app; apply map_filter_sublist.
Qed.

(** X11: a composition that completes allocates, in this order and all
    under the "/stm32" container, the clock controller "rcc", the flash
    controller "flash", the power controller "pwr" if the descriptor flags
    it, one GPIO child for each flagged port A to G and one serial child
    for each flagged port 1 to 6, each with the type of its kind; it
    allocates no other node. *)
Theorem realize_allocates_flagged_children (host : Host) (w w' : World)
    (D : STM32Capabilities) :
  param_capabilities (w_mcu w) = Some D ->
  stm32_mcu_realize_callback host w = Returns None w' ->
  child_allocations (events_since w w') =
  map (fun c => (Some (Obj_container (Some Obj_dev) "/stm32"), c.1, c.2))
    ([("rcc", TYPE_STM32_RCC); ("flash", TYPE_STM32_FLASH)] ++
     (if has_pwr D then [("pwr", TYPE_STM32_PWR)] else []) ++
     map (fun i => (gpio_child_name i, TYPE_STM32_GPIO))
       (List.filter (has_gpio D) all_gpio_ports) ++
     map (fun j => (usart_child_name j, TYPE_STM32_USART))
       (List.filter (has_serial D) all_usart_ports)).
Proof.
  intros Hcaps Hrun.
  destruct (realize_returned_none host w w' Hrun) as (cm' & Hbase).
  destruct (realize_completed host w w' D cm' None Hcaps Hbase Hrun)
    as (_ & _ & _ & _ & Halloc & _).
  exact Halloc.
Qed.

Lemma realize_allocates_flagged_children_witness :
  map (fun a => a.1.2)
    (child_allocations (events_since sample_world sample_composed_world)) =
  ["rcc"; "flash"; "pwr"; "gpio[a]"; "gpio[b]"; "usart[1]"; "usart[4]"].
Proof.
  rewrite (realize_allocates_flagged_children sample_host sample_world
             sample_composed_world sample_capabilities).
  - reflexivity.
  - reflexivity.
  - vm_compute. reflexivity.
Defined.

(** X12: in a composition that completes no two children are allocated
    under the same name, whatever the descriptor flags. *)
Theorem realize_child_names_distinct (host : Host) (w w' : World)
    (D : STM32Capabilities) :
  param_capabilities (w_mcu w) = Some D ->
  stm32_mcu_realize_callback host w = Returns None w' ->
  NoDup (map (fun a => a.1.2) (child_allocations (events_since w w'))).
Proof.
  intros Hcaps Hrun.
  destruct (realize_returned_none host w w' Hrun) as (cm' & Hbase).
  destruct (realize_completed host w w' D cm' None Hcaps Hbase Hrun)
    as (_ & _ & Hnodes & _).
  rewrite child_allocations_nodes, Hnodes, composed_nodes_names.
  apply composed_names_distinct.
Qed.

Lemma realize_child_names_distinct_witness :
  NoDup (map (fun a => a.1.2)
           (child_allocations (events_since sample_world sample_composed_world))).
Proof.
  apply (realize_child_names_distinct sample_host sample_world
           sample_composed_world sample_capabilities).
  - reflexivity.
  - vm_compute. reflexivity.
Defined.

(** X13: a composition that completes realizes every node it allocates,
    once each and in the order of allocation; the nodes are handed out
    consecutively from the first free node number, and there are two of
    them plus one for each of the flags [has_pwr], [has_gpioa] to
    [has_gpiog] and [has_usart1] to [has_usart6] that is set. *)
Theorem realize_realizes_what_it_allocates (host : Host) (w w' : World)
    (D : STM32Capabilities) :
  param_capabilities (w_mcu w) = Some D ->
  stm32_mcu_realize_callback host w = Returns None w' ->
  let nodes := child_nodes (events_since w w') in
  realized_nodes (events_since w w') = map snd nodes /\
  map snd nodes = map Obj_child (seq (w_next_obj w) (length nodes)) /\
  w_next_obj w' = (w_next_obj w + length nodes)%nat /\
  length nodes =
    (2 + (if has_pwr D then 1 else 0) +
     length (List.filter (has_gpio D) all_gpio_ports) +
     length (List.filter (has_serial D) all_usart_ports))%nat.
Proof.
  intros Hcaps Hrun nodes. subst nodes.
  destruct (realize_returned_none host w w' Hrun) as (cm' & Hbase).
  destruct (realize_completed host w w' D cm' None Hcaps Hbase Hrun)
    as (_ & Hnext & Hnodes & Hreal & _).
  assert (Hlen : length (composed_nodes D (w_next_obj w)) =
                 length (composed_children D)).
  { rewrite <- (length_map fst), composed_nodes_names. apply length_map. }
  rewrite Hnodes, Hreal, Hlen.
  split; [reflexivity |].
  split; [apply composed_nodes_objects |].
  split; [exact Hnext |].
  unfold composed_children. rewrite !length_app, !length_map.
  destruct (has_pwr D); cbn [length]; lia.
Qed.

Lemma realize_realizes_what_it_allocates_witness :
  let nodes := child_nodes (events_since sample_world sample_composed_world) in
  realized_nodes (events_since sample_world sample_composed_world) =
    map snd nodes /\
  map snd nodes = map Obj_child (seq 0 7) /\
  w_next_obj sample_composed_world = 7%nat.
Proof.
  destruct (realize_realizes_what_it_allocates sample_host sample_world
              sample_composed_world sample_capabilities)
    as (Hreal & Hnum & Hnext & Hlen).
  - reflexivity.
  - vm_compute. reflexivity.
  - cbv zeta. split; [exact Hreal |]. rewrite Hnum, Hnext, Hlen.
    split; reflexivity.
Defined.

(** ** Slots and names *)

Lemma assigned_nodes_names_forall {I : Type} (flag : I -> bool)
    (name : I -> string) (P : string -> Prop) (ports : list I) (n : nat) :
  (forall i, P (name i)) ->
  Forall (fun c => P c.1) (assigned_nodes flag name ports n).
Proof.
  intros Hall. revert n. induction ports as [|i ports IH]; intros n;
    [constructor |].
  cbn. destruct (flag i); [constructor; [apply Hall |] |]; apply IH.
Qed.

Lemma lookup_node_other_names (name : string) (nodes : list (string * Object)) :
  Forall (fun c => c.1 <> name) nodes -> lookup_node name nodes = None.
Proof.
  induction 1 as [|[n obj] nodes Hne _ IH]; [reflexivity |].
  cbn in Hne |- *. rewrite decide_False by exact Hne. exact IH.
Qed.

(** A name that is none of the three controller names is looked up among
    the port nodes. *)
Lemma lookup_node_past_controllers (D : STM32Capabilities) (n : nat)
    (name : string) :
  name <> "rcc" -> name <> "flash" -> name <> "pwr" ->
  lookup_node name (composed_nodes D n) =
  lookup_node name
    (assigned_nodes (has_gpio D) gpio_child_name all_gpio_ports
       (2 + n + if has_pwr D then 1 else 0) ++
     assigned_nodes (has_serial D) usart_child_name all_usart_ports
       (2 + n + (if has_pwr D then 1 else 0) +
        length (List.filter (has_gpio D) all_gpio_ports))).
Proof.
  intros Hrcc Hflash Hpwr. unfold composed_nodes. cbv zeta.
  destruct (has_pwr D); cbn [app lookup_node];
    rewrite !decide_False by congruence; reflexivity.
Qed.

Lemma gpio_port_in_table (i : stm32_gpio_index_t) :
  all_gpio_ports !! Z.to_nat (gpio_index_value i) = Some i.
Proof. destruct i; reflexivity. Qed.

Lemma usart_port_in_table (j : stm32_usart_index_t) :
  all_usart_ports !! Z.to_nat (usart_index_value j) = Some j.
Proof. destruct j; reflexivity. Qed.

Lemma gpio_table_names_distinct : NoDup (map gpio_child_name all_gpio_ports).
Proof. apply (bool_decide_unpack _). vm_compute. exact I. Qed.

Lemma usart_table_names_distinct : NoDup (map usart_child_name all_usart_ports).
Proof. apply (bool_decide_unpack _). vm_compute. exact I. Qed.

(** Looking up the name of a GPIO port among the nodes of a composition
    gives what the walk of the GPIO table left in the port's slot. *)
Lemma composed_node_of_gpio (D : STM32Capabilities) (n : nat)
    (i : stm32_gpio_index_t) :
  lookup_node (gpio_child_name i) (composed_nodes D n) =
  mjoin (assigned_slots (has_gpio D) all_gpio_ports
           (2 + n + if has_pwr D then 1 else 0)
         !! Z.to_nat (gpio_index_value i)).
Proof.
  rewrite lookup_node_past_controllers
    by (destruct i; vm_compute; discriminate).
  rewrite lookup_node_app.
  rewrite (assigned_slot_is_named_node _ gpio_child_name _ _ _ i
             gpio_table_names_distinct (gpio_port_in_table i)).
  destruct (lookup_node _ _); [reflexivity |].
  apply lookup_node_other_names.
  apply (assigned_nodes_names_forall _ _ (fun s => s <> gpio_child_name i)).
  intros j. destruct i, j; vm_compute; discriminate.
Qed.

(** The same for a serial port. *)
Lemma composed_node_of_usart (D : STM32Capabilities) (n : nat)
    (j : stm32_usart_index_t) :
  lookup_node (usart_child_name j) (composed_nodes D n) =
  mjoin (assigned_slots (has_serial D) all_usart_ports
           (2 + n + (if has_pwr D then 1 else 0) +
            length (List.filter (has_gpio D) all_gpio_ports))
         !! Z.to_nat (usart_index_value j)).
Proof.
  rewrite lookup_node_past_controllers
    by (destruct j; vm_compute; discriminate).
  rewrite lookup_node_app.
  rewrite (lookup_node_other_names (usart_child_name j)
             (assigned_nodes (has_gpio D) _ _ _)).
  - symmetry. apply assigned_slot_is_named_node.
    + exact usart_table_names_distinct.
    + apply usart_port_in_table.
  - apply (assigned_nodes_names_forall _ _ (fun s => s <> usart_child_name j)).
    intros i. destruct i, j; vm_compute; discriminate.
Qed.

(** The three controller names among the nodes of a composition. *)
Lemma composed_node_of_controllers (D : STM32Capabilities) (n : nat) :
  lookup_node "rcc" (composed_nodes D n) = Some (Obj_child n) /\
  lookup_node "flash" (composed_nodes D n) = Some (Obj_child (S n)) /\
  lookup_node "pwr" (composed_nodes D n) =
    (if has_pwr D then Some (Obj_child (S (S n))) else None).
Proof.
  unfold composed_nodes. cbv zeta.
  split; [reflexivity |]. split; [reflexivity |].
  destruct (has_pwr D); [reflexivity |].
  cbn [app lookup_node]. rewrite !decide_False by discriminate.
  rewrite lookup_node_app.
  rewrite !lookup_node_other_names; [reflexivity | |];
    apply (assigned_nodes_names_forall _ _ (fun s => s <> "pwr"));
    intros k; destruct k; vm_compute; discriminate.
Qed.

(** X14: after a composition that completes on an instance with empty
    child slots, every slot holds exactly the node that was allocated under
    the slot's public name: the clock, flash and power controller slots the
    nodes named "rcc", "flash" and "pwr", the slot of GPIO port [i] the
    node named [gpio_child_name i] and the slot of serial port [j] the node
    named [usart_child_name j]; a slot is empty exactly when no node of
    its name was allocated. *)
Theorem realize_slots_hold_named_nodes (host : Host) (w w' : World)
    (D : STM32Capabilities) :
  param_capabilities (w_mcu w) = Some D ->
  slots_unpopulated (w_mcu w) ->
  stm32_mcu_realize_callback host w = Returns None w' ->
  let calls := events_since w w' in
  rcc (w_mcu w') = node_named "rcc" calls /\
  flash (w_mcu w') = node_named "flash" calls /\
  pwr (w_mcu w') = node_named "pwr" calls /\
  (forall i, gpio_slot (w_mcu w') i = node_named (gpio_child_name i) calls) /\
  (forall j, usart_slot (w_mcu w') j = node_named (usart_child_name j) calls).
Proof.
  intros Hcaps (Hgpio0 & Husart0 & Hpwr0) Hrun calls. subst calls.
  destruct (realize_returned_none host w w' Hrun) as (cm' & Hbase).
  destruct (realize_completed host w w' D cm' None Hcaps Hbase Hrun)
    as (_ & _ & Hnodes & _ & _ & Hrcc & Hflash & Hpwr & Hgpio & Husart).
  destruct (composed_node_of_controllers D (w_next_obj w))
    as (Hrcc_node & Hflash_node & Hpwr_node).
  unfold node_named, gpio_slot, usart_slot. rewrite Hnodes.
  split; [congruence |]. split; [congruence |].
  split; [rewrite Hpwr, Hpwr_node, Hpwr0; reflexivity |].
  split.
  - intros i. rewrite composed_node_of_gpio, (Hgpio Hgpio0). reflexivity.
  - intros j. rewrite composed_node_of_usart, (Husart Husart0). reflexivity.
Qed.

Lemma realize_slots_hold_named_nodes_witness :
  let calls := events_since sample_world sample_composed_world in
  gpio_slot (w_mcu sample_composed_world) STM32_GPIO_PORT_B =
    node_named "gpio[b]" calls /\
  gpio_slot (w_mcu sample_composed_world) STM32_GPIO_PORT_C = None /\
  usart_slot (w_mcu sample_composed_world) STM32_UART_4 =
    node_named "usart[4]" calls.
Proof.
  destruct (realize_slots_hold_named_nodes sample_host sample_world
              sample_composed_world sample_capabilities)
    as (_ & _ & _ & Hgpio & Husart).
  - reflexivity.
  - repeat split.
  - vm_compute. reflexivity.
  - cbv zeta. split; [exact (Hgpio STM32_GPIO_PORT_B) |].
    split; [rewrite (Hgpio STM32_GPIO_PORT_C); vm_compute; reflexivity |].
    exact (Husart STM32_UART_4).
Defined.

(** ** Reset after composition *)

Lemma reset_targets_app (t1 t2 : list Event) :
  reset_targets (t1 ++ t2) = reset_targets t1 ++ reset_targets t2.
Proof. unfold reset_targets. apply omap_app. Qed.

Lemma reset_targets_resets (devs : list DeviceState) :
  reset_targets (map E_device_reset devs) = devs.
Proof.
  induction devs as [|dev devs IH]; [reflexivity |].
  cbn. f_equal. exact IH.
Qed.

(** The devices one reset walk reaches. *)
Lemma reset_targets_walk (s : STM32MCUState) :
  reset_targets (reset_walk s) =
  option_list (rcc s) ++ option_list (flash s) ++
  omap id (gpio s) ++ omap id (usart s).
Proof.
  unfold reset_walk. rewrite !reset_targets_app, !reset_targets_resets.
  reflexivity.
Qed.

(** Dropping the node named "pwr" from the nodes of a table none of whose
    names is "pwr" drops nothing. *)
Lemma port_nodes_not_pwr {I : Type} (flag : I -> bool) (name : I -> string)
    (ports : list I) (n : nat) :
  (forall i, String.eqb (name i) "pwr" = false) ->
  List.filter (fun c => negb (String.eqb c.1 "pwr"))
    (assigned_nodes flag name ports n) =
  assigned_nodes flag name ports n.
Proof.
  intros Hname. revert n. induction ports as [|i ports IH]; intros n;
    [reflexivity |].
  cbn [assigned_nodes]. destruct (flag i); [| apply IH].
  cbn [List.filter fst]. rewrite Hname, IH. reflexivity.
Qed.

(** X15: a reset that follows a completed composition (on an instance
    whose child slots were empty before) returns, leaves the instance as
    it is, and forwards a reset to the nodes the composition allocated,
    once each and in the order of their allocation, with the one exception
    of the node named "pwr", which it leaves out. *)
Theorem reset_after_realize (host : Host) (w w' : World)
    (D : STM32Capabilities) :
  param_capabilities (w_mcu w) = Some D ->
  slots_unpopulated (w_mcu w) ->
  stm32_mcu_realize_callback host w = Returns None w' ->
  exists w'',
    stm32_mcu_reset_callback w' = Returns tt w'' /\
    w_mcu w'' = w_mcu w' /\
    reset_targets (events_since w' w'') =
      map snd
        (List.filter (fun c => negb (String.eqb c.1 "pwr"))
           (child_nodes (events_since w w'))).
Proof.
  intros Hcaps (Hgpio0 & Husart0 & Hpwr0) Hrun.
  destruct (realize_returned_none host w w' Hrun) as (cm' & Hbase).
  destruct (realize_completed host w w' D cm' None Hcaps Hbase Hrun)
    as (_ & _ & Hnodes & _ & _ & Hrcc & Hflash & _ & Hgpio & Husart).
  specialize (Hgpio Hgpio0). specialize (Husart Husart0).
  assert (Hsized : slot_arrays_sized (w_mcu w')).
  { split; [rewrite Hgpio | rewrite Husart]; apply length_assigned_slots. }
  eexists. split; [apply (reset_runs w' Hsized) |].
  split; [reflexivity |].
  erewrite events_since_app by reflexivity.
  rewrite reset_targets_walk, Hrcc, Hflash, Hgpio, Husart, Hnodes.
  rewrite (assigned_slots_objects _ gpio_child_name).
  rewrite (assigned_slots_objects _ usart_child_name).
  unfold composed_nodes. cbv zeta.
  rewrite !List.filter_app, !map_app.
  rewrite !port_nodes_not_pwr
    by (intros k; destruct k; vm_compute; reflexivity).
  destruct (has_pwr D); reflexivity.
Qed.

Lemma reset_after_realize_witness :
  exists w'',
    stm32_mcu_reset_callback sample_composed_world = Returns tt w'' /\
    reset_targets (events_since sample_composed_world w'') =
      [Obj_child 0; Obj_child 1; Obj_child 3; Obj_child 4; Obj_child 5;
       Obj_child 6].
Proof.
  destruct (reset_after_realize sample_host sample_world sample_composed_world
              sample_capabilities)
    as (w'' & Hrun & _ & Htargets).
  - reflexivity.
  - repeat split.
  - vm_compute. reflexivity.
  - exists w''. split; [exact Hrun |]. rewrite Htargets. vm_compute. reflexivity.
Defined.

(** ** When a composition completes *)

(** A table walk that returns has called its factory on every flagged
    port, and each of these calls returned. *)
Lemma ports_setup_returned {I : Type} (flag : I -> bool) (factory : I -> M unit)
    (backed : I -> Prop) (ports : list I) (w w' : World) :
  (forall i w0 w1, factory i w0 = Returns tt w1 -> backed i) ->
  ports_setup flag factory ports w = Returns tt w' ->
  forall i, i ∈ ports -> flag i = true -> backed i.
Proof.
  intros Hbacked. revert w. induction ports as [|i ports IH]; intros w Hrun k Hin;
    [apply elem_of_nil in Hin; contradiction |].
  cbn [ports_setup] in Hrun.
  apply bind_returns in Hrun as ([] & w1 & Hstep & Hrest).
  apply elem_of_cons in Hin as [->|Hin]; intros Hflag.
  - rewrite Hflag in Hstep. cbn [when] in Hstep.
    exact (Hbacked i w w1 Hstep).
  - exact (IH w1 Hrest k Hin Hflag).
Qed.

(** X16: with a descriptor and a base step that succeeds, the composition
    returns only if the host can back every serial port the descriptor
    flags (the port's index is below MAX_SERIAL_PORTS, and the port has a
    configured stream or a "null" stream can be created for it), and what
    it then returns is "no error".  So a flagged serial port that the host
    cannot back keeps the composition from completing. *)
Theorem realize_completes_only_if_ports_backed (host : Host) (w : World)
    (D : STM32Capabilities) (cm' : CortexMState) :
  param_capabilities (w_mcu w) = Some D ->
  host_parent_realize host (parent_obj (w_mcu w)) = (cm', None) ->
  (forall r w',
     stm32_mcu_realize_callback host w = Returns r w' ->
     r = None /\ forall j, has_serial D j = true -> port_backed host j) /\
  (forall j, has_serial D j = true -> ~ port_backed host j ->
     forall r w', stm32_mcu_realize_callback host w <> Returns r w').
Proof.
  intros Hcaps Hbase.
  assert (Hreturned : forall r w',
            stm32_mcu_realize_callback host w = Returns r w' ->
            r = None /\ forall j, has_serial D j = true -> port_backed host j).
  { intros r w' Hrun.
    rewrite (realize_past_check host w D cm' Hcaps Hbase) in Hrun.
    apply bind_returns in Hrun as ([] & w1 & _ & Hrun).
    apply bind_returns in Hrun as ([] & w2 & _ & Hrun).
    apply bind_returns in Hrun as ([] & w3 & Husart & Hrun).
    injection Hrun as <- _. split; [reflexivity |].
    rewrite usart_setup_is_table in Husart.
    intros j Hflag.
    apply (ports_setup_returned (has_serial D) (fun j => create_usart host j D)
             (port_backed host) all_usart_ports w2 w3
             (fun j w0 w1 => create_usart_returned_backed host j D w0 w1)
             Husart j);
      [destruct j; repeat constructor | exact Hflag]. }
  split; [exact Hreturned |].
  intros j Hflag Hunbacked r w' Hrun.
  apply Hunbacked. exact (proj2 (Hreturned r w' Hrun) j Hflag).
Qed.

Lemma realize_completes_only_if_ports_backed_witness :
  port_backed sample_host STM32_USART_1 /\ port_backed sample_host STM32_UART_4.
Proof.
  destruct (realize_completes_only_if_ports_backed sample_host sample_world
              sample_capabilities sample_cortexm)
    as (Hreturned & _).
  - reflexivity.
  - reflexivity.
  - destruct (Hreturned None sample_composed_world) as (_ & Hports).
    + vm_compute. reflexivity.
    + split; apply Hports; reflexivity.
Defined.
